(** * Validation gate and workflow state of the protein MD agents

    A shallow embedding of [src/tools/validation_tools_protein.py]
    (class [ValidationManager]) and of the state export of
    [src/tools/workflow_logger.py] (class [WorkflowLogger]), with the
    properties of the validation gate stated and proved over it.

    Conventions of the embedding.
    - Python [str] values are Rocq strings.  Text read from structure
      files has one [ascii] per character and is therefore limited to
      characters below U+0100; [len], indexing and slicing of such text
      count [ascii]s.  Texts made by the program (status messages, tool
      results, what the logger stores and exports) hold pictographs and
      are carried as UTF-8; their length and their slices are taken in
      characters, a character being a lead byte with its continuation
      bytes.
    - The file system is a finite map from path strings to nodes; a node
      records what reading or listing it yields, an exception included.
      Paths are compared as strings (no normalisation, POSIX separators).
    - A method of [ValidationManager] is a state transformer that returns
      either a value or the exception it raised.
    - The timestamp of a history record is wall-clock time and is left out
      of the record.
    - The order in which Python prints the elements of a [set] is not
      fixed by the language; the printer is a parameter [repr_set]. *)

From Stdlib Require Import Ascii.
From stdpp Require Import base option gmap sets list strings pretty.

(** ** Python string operations used by the source *)

Module PyStr.

Definition newline : ascii := "010"%char.

(** [str.isspace] on one character, for code points below U+0100. *)
Definition is_space (c : ascii) : bool :=
  match c with
  | "009" | "010" | "011" | "012" | "013"
  | "028" | "029" | "030" | "031" | " "
  | "133" | "160" => true
  | _ => false
  end%char.

Definition len (s : string) : nat := String.length s.

(** [s[i:j]] for constants [0 <= i <= j]. *)
Definition slice (i j : nat) (s : string) : string :=
  String.substring i (j - i) s.

(** Whether [c] is a continuation byte of UTF-8 (10xxxxxx). *)
Definition is_continuation (c : ascii) : bool :=
  let n := Ascii.nat_of_ascii c in (128 <=? n) && (n <? 192).

(** [len(s)] for text carried as UTF-8: the number of characters. *)
Fixpoint len_chars (s : string) : nat :=
  match s with
  | "" => 0
  | String c s' => (if is_continuation c then 0 else 1) + len_chars s'
  end.

(** [s[:n]] for text carried as UTF-8: the first [n] characters, each
    with its continuation bytes. *)
Fixpoint take_chars (n : nat) (s : string) : string :=
  match s with
  | "" => ""
  | String c s' =>
      if is_continuation c then String c (take_chars n s')
      else match n with
           | 0 => ""
           | S n' => String c (take_chars n' s')
           end
  end.

(** [s[i]]; [None] stands for the IndexError. *)
Definition index (i : nat) (s : string) : option ascii := String.get i s.

Definition startswith (p s : string) : bool := String.prefix p s.

Definition endswith (p s : string) : bool :=
  String.prefix (String.rev p) (String.rev s).

Fixpoint lstrip (s : string) : string :=
  match s with
  | "" => ""
  | String c s' => if is_space c then lstrip s' else s
  end.

Fixpoint rstrip (s : string) : string :=
  match s with
  | "" => ""
  | String c s' =>
      match rstrip s' with
      | "" => if is_space c then "" else String c ""
      | r => String c r
      end
  end.

Definition strip (s : string) : string := rstrip (lstrip s).

(** [str.lower] on one character below U+0100. *)
Definition lower_char (c : ascii) : ascii :=
  let n := Ascii.nat_of_ascii c in
  if ((65 <=? n) && (n <=? 90)) || ((192 <=? n) && (n <=? 222) && negb (n =? 215))
  then Ascii.ascii_of_nat (n + 32) else c.

Fixpoint lower (s : string) : string :=
  match s with
  | "" => ""
  | String c s' => String (lower_char c) (lower s')
  end.

(** [sub in s]. *)
Fixpoint contains (sub s : string) : bool :=
  String.prefix sub s ||
  match s with
  | "" => false
  | String _ s' => contains sub s'
  end.

(** [s.split(sep)] for a one-character separator. *)
Fixpoint split (sep : ascii) (s : string) : list string :=
  match s with
  | "" => [""]
  | String c s' =>
      if Ascii.eqb c sep then "" :: split sep s'
      else match split sep s' with
           | w :: ws => String c w :: ws
           | [] => [String c ""]
           end
  end.

(** [f.readlines()] on text whose line ends are already [\n]: every
    line keeps its terminator, the last one may lack it. *)
Fixpoint readlines (s : string) : list string :=
  match s with
  | "" => []
  | String c s' =>
      if Ascii.eqb c newline then String c "" :: readlines s'
      else match readlines s' with
           | w :: ws => String c w :: ws
           | [] => [String c ""]
           end
  end.

(** [sep.join(l)]. *)
Fixpoint join (sep : string) (l : list string) : string :=
  match l with
  | [] => ""
  | [x] => x
  | x :: l' => x +:+ sep +:+ join sep l'
  end.

(** [str(n)] for a non-negative [int]. *)
Definition of_nat (n : nat) : string := pretty n.

(** Truth value of an [Optional[str]]: [None] and [""] are false. *)
Definition truthy (o : option string) : bool :=
  match o with
  | Some (String _ _) => true
  | _ => false
  end.

End PyStr.

(** ** [os.path] *)

Module OsPath.

Definition isabs (p : string) : bool := PyStr.startswith "/" p.

Definition join (a b : string) : string :=
  if PyStr.startswith "/" b then b
  else if bool_decide (a = "") || PyStr.endswith "/" a then a +:+ b
  else a +:+ "/" +:+ b.

(** Text after the last separator. *)
Fixpoint basename (p : string) : string :=
  match p with
  | "" => ""
  | String c p' =>
      if PyStr.contains "/" p' then basename p'
      else if Ascii.eqb c "/"%char then p' else p
  end.

End OsPath.

(** ** Exceptions and the file system *)

(** The exception classes the code can meet; all derive from
    [Exception], so an [except Exception] clause catches each of them. *)
Inductive Exn : Type :=
  | ValueError (msg : string)
  | TypeError (msg : string)
  | IndexError (msg : string)
  | OSError (msg : string)
  | UnicodeDecodeError (msg : string).

(** [str(e)]. *)
Definition str_exn (e : Exn) : string :=
  match e with
  | ValueError m | TypeError m | IndexError m | OSError m
  | UnicodeDecodeError m => m
  end.

Module FS.

(** What a path names.  A file carries what [open(p).read()] yields:
    its text, or the exception of an unreadable or undecodable file.
    A directory carries what [os.listdir(p)] yields. *)
Inductive node : Type :=
  | File (content : Exn + string)
  | Dir (entries : Exn + list string).

(** [os.path.exists]. *)
Definition exists_ (fs : gmap string node) (p : string) : bool :=
  match p with
  | "" => false
  | _ => bool_decide (is_Some (fs !! p))
  end.

(** [open(p, 'r')] followed by [read()] or [readlines()]. *)
Definition read_text (fs : gmap string node) (p : string) : Exn + string :=
  match fs !! p with
  | Some (File c) => c
  | Some (Dir _) => inl (OSError ("[Errno 21] Is a directory: '" +:+ p +:+ "'"))
  | None => inl (OSError ("[Errno 2] No such file or directory: '" +:+ p +:+ "'"))
  end.

(** [os.listdir]. *)
Definition listdir (fs : gmap string node) (p : string) : Exn + list string :=
  match fs !! p with
  | Some (Dir l) => l
  | Some (File _) => inl (OSError ("[Errno 20] Not a directory: '" +:+ p +:+ "'"))
  | None => inl (OSError ("[Errno 2] No such file or directory: '" +:+ p +:+ "'"))
  end.

End FS.

(** ** The state of a [ValidationManager] *)

(** One record of [validation_history]. *)
Record LogEntry : Type := mkLogEntry {
  log_type : string;
  log_success : bool;
  log_message : string
}.

(** The bound methods that [_register_default_methods] stores in the
    table of validation methods. *)
Inductive Method : Type :=
  | ValidateStructure
  | ValidateForcefieldCoverage
  | CheckWorkflowStatus
  | CheckSystemReady.

Record ValidationManager : Type := mkValidationManager {
  workdir : string;
  structure_validated : bool;
  forcefield_validated : bool;
  system_prepared : bool;
  validated_structure_file : option string;
  validated_forcefield : option string;
  validated_system_file : option string;
  validation_history : list LogEntry;
  validation_methods : gmap string Method
}.

Definition set_structure_validated (b : bool) (self : ValidationManager) :=
  mkValidationManager (workdir self) b (forcefield_validated self)
    (system_prepared self) (validated_structure_file self)
    (validated_forcefield self) (validated_system_file self)
    (validation_history self) (validation_methods self).

Definition set_forcefield_validated (b : bool) (self : ValidationManager) :=
  mkValidationManager (workdir self) (structure_validated self) b
    (system_prepared self) (validated_structure_file self)
    (validated_forcefield self) (validated_system_file self)
    (validation_history self) (validation_methods self).

Definition set_system_prepared (b : bool) (self : ValidationManager) :=
  mkValidationManager (workdir self) (structure_validated self)
    (forcefield_validated self) b (validated_structure_file self)
    (validated_forcefield self) (validated_system_file self)
    (validation_history self) (validation_methods self).

Definition set_validated_structure_file (o : option string) (self : ValidationManager) :=
  mkValidationManager (workdir self) (structure_validated self)
    (forcefield_validated self) (system_prepared self) o
    (validated_forcefield self) (validated_system_file self)
    (validation_history self) (validation_methods self).

Definition set_validated_forcefield (o : option string) (self : ValidationManager) :=
  mkValidationManager (workdir self) (structure_validated self)
    (forcefield_validated self) (system_prepared self)
    (validated_structure_file self) o (validated_system_file self)
    (validation_history self) (validation_methods self).

Definition set_validated_system_file (o : option string) (self : ValidationManager) :=
  mkValidationManager (workdir self) (structure_validated self)
    (forcefield_validated self) (system_prepared self)
    (validated_structure_file self) (validated_forcefield self) o
    (validation_history self) (validation_methods self).

Definition set_validation_history (h : list LogEntry) (self : ValidationManager) :=
  mkValidationManager (workdir self) (structure_validated self)
    (forcefield_validated self) (system_prepared self)
    (validated_structure_file self) (validated_forcefield self)
    (validated_system_file self) h (validation_methods self).

Definition set_validation_methods (t : gmap string Method) (self : ValidationManager) :=
  mkValidationManager (workdir self) (structure_validated self)
    (forcefield_validated self) (system_prepared self)
    (validated_structure_file self) (validated_forcefield self)
    (validated_system_file self) (validation_history self) t.

(** ** Methods as state transformers that may raise *)

Definition M (A : Type) : Type :=
  ValidationManager → ValidationManager * (Exn + A).

Definition ret {A} (a : A) : M A := λ self, (self, inr a).

Definition raise {A} (e : Exn) : M A := λ self, (self, inl e).

Definition bind {A B} (m : M A) (k : A → M B) : M B := λ self,
  match m self with
  | (self', inr a) => k a self'
  | (self', inl e) => (self', inl e)
  end.

(** [try: body / except Exception as e: handler e]; what [body] did to
    the state before it raised stays done. *)
Definition try_except {A} (body : M A) (handler : Exn → M A) : M A := λ self,
  match body self with
  | (self', inl e) => handler e self'
  | r => r
  end.

(** A computation that reads no state. *)
Definition lift {A} (r : Exn + A) : M A := λ self, (self, r).

Definition get_self : M ValidationManager := λ self, (self, inr self).

Definition update (f : ValidationManager → ValidationManager) : M unit :=
  λ self, (f self, inr tt).

Notation "x <- m ;; k" := (bind m (λ x, k))
  (at level 100, m at next level, right associativity).
Notation "m ;;; k" := (bind m (λ _, k))
  (at level 100, right associativity).

(** Errors of the computations that touch no state. *)
Definition ebind {A B} (r : Exn + A) (k : A → Exn + B) : Exn + B :=
  match r with
  | inl e => inl e
  | inr a => k a
  end.

Fixpoint foldM {A B} (f : B → A → Exn + B) (acc : B) (l : list A) : Exn + B :=
  match l with
  | [] => inr acc
  | x :: l' => ebind (f acc x) (λ acc', foldM f acc' l')
  end.

Fixpoint filterM {A} (f : A → Exn + bool) (l : list A) : Exn + list A :=
  match l with
  | [] => inr []
  | x :: l' =>
      ebind (f x) (λ b,
      ebind (filterM f l') (λ r, inr (if b then x :: r else r)))
  end.

(** ** The validators *)

Definition nl : string := String PyStr.newline "".

Definition is_atom_line (l : string) : bool :=
  PyStr.startswith "ATOM" l || PyStr.startswith "HETATM" l.

(** [full_path] of the three validators and of [mark_structure_validated]. *)
Definition full_path_of (self : ValidationManager) (file : string) : string :=
  if negb (OsPath.isabs file) then OsPath.join (workdir self) file else file.

Definition _log_validation (validation_type : string) (success : bool)
    (message : string) : M unit :=
  update (λ self, set_validation_history
    (validation_history self ++ [mkLogEntry validation_type success message]) self).

Definition standard_aa : gset string :=
  {[ "ALA"; "ARG"; "ASN"; "ASP"; "CYS"; "GLN"; "GLU"; "GLY";
     "HIS"; "ILE"; "LEU"; "LYS"; "MET"; "PHE"; "PRO"; "SER";
     "THR"; "TRP"; "TYR"; "VAL"; "HIE"; "HID"; "HIP" ]}.

Definition backbone_atoms : gset string := {[ "CA"; "C"; "N" ]}.

(** Body of the loop that fills [residues] and [chains]. *)
Definition add_residue (acc : gset string * gset string) (line : string)
    : Exn + (gset string * gset string) :=
  if 26 <=? PyStr.len line then
    match PyStr.index 21 line with
    | None => inl (IndexError "string index out of range")
    | Some c =>
        let chain := String c "" in
        let resnum := PyStr.strip (PyStr.slice 22 26 line) in
        let resname := PyStr.strip (PyStr.slice 17 20 line) in
        inr ({[ chain +:+ "_" +:+ resnum +:+ "_" +:+ resname ]} ∪ acc.1,
             {[ chain ]} ∪ acc.2)
    end
  else inr acc.

(** [r.split('_')[2] in standard_aa]. *)
Definition is_aa_residue (r : string) : Exn + bool :=
  match PyStr.split "_"%char r !! 2 with
  | None => inl (IndexError "list index out of range")
  | Some name => inr (bool_decide (name ∈ standard_aa))
  end.

(** Body of the loop that fills [found_backbone]. *)
Definition add_backbone (found : gset string) (line : string) : gset string :=
  if 16 <=? PyStr.len line then
    let atom_name := PyStr.strip (PyStr.slice 12 16 line) in
    if bool_decide (atom_name ∈ backbone_atoms) then {[ atom_name ]} ∪ found
    else found
  else found.

Definition found_backbone_of (atom_lines : list string) : gset string :=
  foldl add_backbone ∅ atom_lines.

Section Validators.

(** How Python prints a [set] of strings inside an f-string. *)
Context (repr_set : gset string → string).

Definition validate_structure (fs : gmap string FS.node) (pdb_file : string)
    : M (bool * string) :=
  self <- get_self;;
  let full_path := full_path_of self pdb_file in
  if negb (FS.exists_ fs full_path) then
    let msg := "❌ Structure file not found: " +:+ pdb_file in
    _log_validation "structure" false msg;;;
    ret (false, msg)
  else
    try_except
      (content <- lift (FS.read_text fs full_path);;
       let lines := PyStr.split PyStr.newline content in
       let atom_lines := List.filter is_atom_line lines in
       if length atom_lines <? 10 then
         let msg := "❌ PDB has insufficient atoms: "
                      +:+ PyStr.of_nat (length atom_lines)
                      +:+ " ATOM/HETATM records" in
         _log_validation "structure" false msg;;;
         ret (false, msg)
       else
         rc <- lift (foldM add_residue (∅, ∅) atom_lines);;
         let residues := rc.1 in
         let chains := rc.2 in
         aa_residues <- lift (filterM is_aa_residue (elements residues));;
         let found_backbone := found_backbone_of atom_lines in
         let missing_backbone := backbone_atoms ∖ found_backbone in
         if bool_decide (missing_backbone ≠ ∅) && (0 <? length aa_residues) then
           let msg := "⚠️ Missing backbone atoms: " +:+ repr_set missing_backbone in
           _log_validation "structure" false msg;;;
           ret (false, msg)
         else
           update (set_structure_validated true);;;
           update (set_validated_structure_file (Some full_path));;;
           let msg := "✅ Structure validated: " +:+ OsPath.basename pdb_file +:+ nl
                      +:+ "   📊 " +:+ PyStr.of_nat (length atom_lines) +:+ " atoms, "
                      +:+ PyStr.of_nat (size residues) +:+ " residues, "
                      +:+ PyStr.of_nat (size chains) +:+ " chain(s)" +:+ nl
                      +:+ "   🧬 " +:+ PyStr.of_nat (length aa_residues)
                      +:+ " amino acid residues" in
           _log_validation "structure" true msg;;;
           ret (true, msg))
      (λ e,
         let msg := "❌ Error reading PDB file: " +:+ str_exn e in
         _log_validation "structure" false msg;;;
         ret (false, msg)).

Definition check_structure_status (fs : gmap string FS.node) : M string :=
  self <- get_self;;
  if structure_validated self && PyStr.truthy (validated_structure_file self) then
    let file := default "" (validated_structure_file self) in
    if FS.exists_ fs file then
      ret ("✅ Structure validated: " +:+ OsPath.basename file)
    else
      update (set_structure_validated false);;;
      update (set_validated_structure_file None);;;
      ret "❌ Previously validated structure file no longer exists"
  else ret "❌ No structure has been validated".

Definition mark_structure_validated (fs : gmap string FS.node)
    (pdb_file : string) : M string :=
  self <- get_self;;
  let full_path := full_path_of self pdb_file in
  if negb (FS.exists_ fs full_path) then
    ret ("❌ Cannot mark as validated - file not found: " +:+ pdb_file)
  else
    update (set_structure_validated true);;;
    update (set_validated_structure_file (Some full_path));;;
    _log_validation "structure" true ("Manually marked validated: " +:+ pdb_file);;;
    ret ("✅ Structure marked as validated: " +:+ pdb_file).

(** *** Force field *)

Definition available_forcefields : list string :=
  [ "amber14-all.xml"; "amber99sb.xml"; "amber99sbildn.xml";
    "charmm36.xml"; "amoeba2013.xml" ].

(** [f"{available_forcefields}"]. *)
Definition repr_available_forcefields : string :=
  "['amber14-all.xml', 'amber99sb.xml', 'amber99sbildn.xml', 'charmm36.xml', 'amoeba2013.xml']".

Definition normalize_ff_name (forcefield : string) : string :=
  if negb (PyStr.endswith ".xml" forcefield) then forcefield +:+ ".xml"
  else forcefield.

Definition known_ff (ff_name : string) : bool :=
  bool_decide (ff_name ∈ available_forcefields)
  || PyStr.contains "amber" (PyStr.lower ff_name)
  || PyStr.contains "charmm" (PyStr.lower ff_name).

(** The set of standard amino acids of [validate_forcefield_coverage]
    (the same names as [standard_aa], written in another order). *)
Definition standard_aa_ff : gset string :=
  {[ "ALA"; "ARG"; "ASN"; "ASP"; "CYS"; "GLN"; "GLU"; "GLY";
     "HIS"; "HIE"; "HID"; "HIP"; "ILE"; "LEU"; "LYS"; "MET";
     "PHE"; "PRO"; "SER"; "THR"; "TRP"; "TYR"; "VAL" ]}.

Definition common_solvent : gset string :=
  {[ "HOH"; "WAT"; "TIP3"; "SOL"; "NA"; "CL"; "K"; "MG"; "CA" ]}.

Definition known_hetero : gset string :=
  {[ "ACE"; "NME"; "NH2"; "GDP"; "GTP"; "ATP"; "ADP"; "NAG"; "MAN" ]}.

(** Body of the loop that fills [residue_types]. *)
Definition add_residue_type (types : gset string) (line : string) : gset string :=
  if is_atom_line line then
    if 20 <=? PyStr.len line then
      {[ PyStr.strip (PyStr.slice 17 20 line) ]} ∪ types
    else types
  else types.

Definition residue_types_of (lines : list string) : gset string :=
  foldl add_residue_type ∅ lines.

Definition unsupported_of (residue_types : gset string) : gset string :=
  residue_types ∖ standard_aa_ff ∖ common_solvent.

Definition unknown_of (residue_types : gset string) : gset string :=
  unsupported_of residue_types ∖ known_hetero.

Definition validate_forcefield_coverage (fs : gmap string FS.node)
    (pdb_file forcefield : string) : M (bool * string) :=
  self <- get_self;;
  let full_path := full_path_of self pdb_file in
  if negb (FS.exists_ fs full_path) then
    let msg := "❌ PDB file not found for forcefield validation: " +:+ pdb_file in
    _log_validation "forcefield" false msg;;;
    ret (false, msg)
  else
    let ff_name := normalize_ff_name forcefield in
    if negb (known_ff ff_name) then
      let msg := "⚠️ Force field '" +:+ forcefield
                   +:+ "' may not be available. Known: "
                   +:+ repr_available_forcefields in
      _log_validation "forcefield" false msg;;;
      ret (false, msg)
    else
      try_except
        (content <- lift (FS.read_text fs full_path);;
         let lines := PyStr.readlines content in
         let residue_types := residue_types_of lines in
         let unsupported := unsupported_of residue_types in
         let unknown := unsupported ∖ known_hetero in
         if bool_decide (unsupported ≠ ∅) && bool_decide (unknown ≠ ∅) then
           let msg := "⚠️ Force field may not cover residue types: "
                        +:+ repr_set unknown +:+ nl
                        +:+ "   Consider removing non-standard residues or adding parameters" in
           _log_validation "forcefield" false msg;;;
           ret (false, msg)
         else
           update (set_forcefield_validated true);;;
           update (set_validated_forcefield (Some forcefield));;;
           let msg := "✅ Force field validated: " +:+ forcefield +:+ nl
                      +:+ "   📊 " +:+ PyStr.of_nat (size residue_types)
                      +:+ " residue types found" +:+ nl
                      +:+ "   🧬 All residues appear to be parameterized" in
           _log_validation "forcefield" true msg;;;
           ret (true, msg))
        (λ e,
           let msg := "❌ Error validating force field coverage: " +:+ str_exn e in
           _log_validation "forcefield" false msg;;;
           ret (false, msg)).

Definition check_forcefield_status : M string :=
  self <- get_self;;
  if forcefield_validated self && PyStr.truthy (validated_forcefield self) then
    ret ("✅ Force field validated: " +:+ default "" (validated_forcefield self))
  else ret "❌ No force field has been validated".

Definition mark_forcefield_validated (forcefield pdb_file : string) : M string :=
  update (set_forcefield_validated true);;;
  update (set_validated_forcefield (Some forcefield));;;
  _log_validation "forcefield" true
    ("Manually marked validated: " +:+ forcefield +:+ " for " +:+ pdb_file);;;
  ret ("✅ Force field marked as validated: " +:+ forcefield).

(** *** System preparation *)

Definition water_names : gset string := {[ "HOH"; "WAT"; "TIP3"; "SOL"; "TIP3P" ]}.

Definition ion_names : gset string :=
  {[ "NA"; "CL"; "K"; "MG"; "CA"; "NA+"; "CL-" ]}.

(** The four counters of [validate_system_preparation]. *)
Record Counts : Type := mkCounts {
  atom_count : nat;
  water_count : nat;
  ion_count : nat;
  protein_atoms : nat
}.

(** Body of the counting loop. *)
Definition count_line (c : Counts) (line : string) : Counts :=
  if is_atom_line line then
    let c := mkCounts (atom_count c + 1) (water_count c) (ion_count c) (protein_atoms c) in
    if 20 <=? PyStr.len line then
      let resname := PyStr.strip (PyStr.slice 17 20 line) in
      if bool_decide (resname ∈ water_names) then
        mkCounts (atom_count c) (water_count c + 1) (ion_count c) (protein_atoms c)
      else if bool_decide (resname ∈ ion_names) then
        mkCounts (atom_count c) (water_count c) (ion_count c + 1) (protein_atoms c)
      else
        mkCounts (atom_count c) (water_count c) (ion_count c) (protein_atoms c + 1)
    else c
  else c.

Definition count_lines (lines : list string) : Counts :=
  foldl count_line (mkCounts 0 0 0 0) lines.

Definition issue_protein (c : Counts) : string :=
  "Low protein atom count: " +:+ PyStr.of_nat (protein_atoms c).

Definition issue_water (c : Counts) : string :=
  "Low water count: " +:+ PyStr.of_nat (water_count c) +:+ " - may need more solvation".

Definition issue_ions : string := "No ions found - system may not be neutralized".

(** The list [issues], built by the three [append]s in source order. *)
Definition issues_of (c : Counts) : list string :=
  (if protein_atoms c <? 100 then [issue_protein c] else [])
  ++ (if water_count c <? 100 then [issue_water c] else [])
  ++ (if ion_count c =? 0 then [issue_ions] else []).

Definition validate_system_preparation (fs : gmap string FS.node)
    (system_file : string) : M (bool * string) :=
  self <- get_self;;
  let full_path := full_path_of self system_file in
  if negb (FS.exists_ fs full_path) then
    let msg := "❌ System file not found: " +:+ system_file in
    _log_validation "system" false msg;;;
    ret (false, msg)
  else
    try_except
      (content <- lift (FS.read_text fs full_path);;
       let lines := PyStr.readlines content in
       let c := count_lines lines in
       let issues := issues_of c in
       if negb (bool_decide (issues = [])) then
         let msg := "⚠️ System preparation issues:" +:+ nl +:+ "   "
                      +:+ PyStr.join (nl +:+ "   ") issues in
         _log_validation "system" false msg;;;
         ret (false, msg)
       else
         update (set_system_prepared true);;;
         update (set_validated_system_file (Some full_path));;;
         let msg := "✅ System prepared: " +:+ OsPath.basename system_file +:+ nl
                    +:+ "   📊 " +:+ PyStr.of_nat (atom_count c) +:+ " total atoms" +:+ nl
                    +:+ "   🧬 " +:+ PyStr.of_nat (protein_atoms c) +:+ " protein atoms" +:+ nl
                    +:+ "   💧 " +:+ PyStr.of_nat (water_count c) +:+ " water atoms" +:+ nl
                    +:+ "   ⚡ " +:+ PyStr.of_nat (ion_count c) +:+ " ion atoms" in
         _log_validation "system" true msg;;;
         ret (true, msg))
      (λ e,
         let msg := "❌ Error validating system: " +:+ str_exn e in
         _log_validation "system" false msg;;;
         ret (false, msg)).

Definition check_system_ready (fs : gmap string FS.node) : M (bool * string) :=
  self <- get_self;;
  if system_prepared self && PyStr.truthy (validated_system_file self) then
    let file := default "" (validated_system_file self) in
    if FS.exists_ fs file then
      ret (true, "✅ System ready: " +:+ OsPath.basename file)
    else
      update (set_system_prepared false);;;
      update (set_validated_system_file None);;;
      ret (false, "❌ Prepared system file no longer exists")
  else ret (false, "❌ No system has been prepared for simulation").

(** *** The gate *)

(** [_find_pdb_files]; [os.listdir] is called without a guard of its
    own, so what it raises leaves the method. *)
Definition _find_pdb_files (fs : gmap string FS.node) : M (list string) :=
  self <- get_self;;
  if FS.exists_ fs (workdir self) then
    names <- lift (FS.listdir fs (workdir self));;
    ret (OsPath.join (workdir self) <$> List.filter (PyStr.endswith ".pdb") names)
  else ret [].

(** The [else] branch of the structure check of
    [check_workflow_status] ("Try to auto-detect structure files"):
    the line for [status_parts] and whether [all_valid] stays true. *)
Definition auto_discover (fs : gmap string FS.node) : M (string * bool) :=
  pdb_files <- _find_pdb_files fs;;
  match pdb_files with
  | first :: _ =>
      r <- validate_structure fs first;;
      if r.1 then
        ret ("✅ Structure: " +:+ OsPath.basename first +:+ " (auto-detected)", true)
      else ret ("❌ Structure: " +:+ r.2, false)
  | [] => ret ("❌ No structure file found", false)
  end.

(** The structure check of [check_workflow_status] ("Check structure"). *)
Definition check_structure_stage (fs : gmap string FS.node) : M (string * bool) :=
  self <- get_self;;
  if structure_validated self && PyStr.truthy (validated_structure_file self) then
    let file := default "" (validated_structure_file self) in
    if FS.exists_ fs file then
      ret ("✅ Structure: " +:+ OsPath.basename file, true)
    else
      update (set_structure_validated false);;;
      update (set_validated_structure_file None);;;
      ret ("❌ Structure file missing", false)
  else auto_discover fs.

(** The force-field check of [check_workflow_status] ("Check force field"). *)
Definition check_forcefield_stage : M (string * bool) :=
  self <- get_self;;
  if forcefield_validated self && PyStr.truthy (validated_forcefield self) then
    ret ("✅ Force field: " +:+ default "" (validated_forcefield self), true)
  else ret ("❌ Force field not validated", false).

(** "Build final message". *)
Definition final_message (all_valid : bool) (status_parts : list string) : string :=
  if all_valid then
    "✅ WORKFLOW READY - All prerequisites met:" +:+ nl +:+ "   "
      +:+ PyStr.join (nl +:+ "   ") status_parts
  else
    "❌ WORKFLOW HALTED - Prerequisites not met:" +:+ nl +:+ "   "
      +:+ PyStr.join (nl +:+ "   ") status_parts.

Definition check_workflow_status (fs : gmap string FS.node) : M (bool * string) :=
  s <- check_structure_stage fs;;
  f <- check_forcefield_stage;;
  let status_parts := [s.1; f.1] in
  let all_valid := s.2 && f.2 in
  let message := final_message all_valid status_parts in
  _log_validation "workflow" all_valid message;;;
  ret (all_valid, message).

Definition reset_validation_state : M string :=
  update (set_structure_validated false);;;
  update (set_forcefield_validated false);;;
  update (set_system_prepared false);;;
  update (set_validated_structure_file None);;;
  update (set_validated_forcefield None);;;
  update (set_validated_system_file None);;;
  ret "🔄 All validation states reset".

(** *** The table of validation methods *)

Definition register_validation_method (name : string) (method : Method) : M unit :=
  update (λ self, set_validation_methods (<[name := method]> (validation_methods self)) self).

Definition _register_default_methods : M unit :=
  register_validation_method "structure" ValidateStructure;;;
  register_validation_method "forcefield" ValidateForcefieldCoverage;;;
  register_validation_method "workflow_status" CheckWorkflowStatus;;;
  register_validation_method "system_ready" CheckSystemReady.

(** [ValidationManager(workdir)]. *)
Definition init (workdir : string) : ValidationManager :=
  (_register_default_methods
     (mkValidationManager workdir false false false None None None [] ∅)).1.

(** Calling a bound method with positional string arguments; a call
    that does not fit the signature raises [TypeError]. *)
Definition call_method (fs : gmap string FS.node) (method : Method)
    (args : list string) : M (bool * string) :=
  match method, args with
  | ValidateStructure, [pdb_file] => validate_structure fs pdb_file
  | ValidateForcefieldCoverage, [pdb_file] =>
      validate_forcefield_coverage fs pdb_file "amber14-all.xml"
  | ValidateForcefieldCoverage, [pdb_file; forcefield] =>
      validate_forcefield_coverage fs pdb_file forcefield
  | CheckWorkflowStatus, [] => check_workflow_status fs
  | CheckSystemReady, [] => check_system_ready fs
  | _, _ => raise (TypeError "wrong number of positional arguments")
  end.

Definition validate (fs : gmap string FS.node) (name : string)
    (args : list string) : M (bool * string) :=
  self <- get_self;;
  match validation_methods self !! name with
  | Some method => call_method fs method args
  | None => raise (ValueError ("Validation method '" +:+ name +:+ "' is not registered."))
  end.

End Validators.

(** ** Shapes of the state after a method *)

(** The state with one more record in [validation_history]. *)
Definition logged (validation_type : string) (success : bool) (message : string)
    (self : ValidationManager) : ValidationManager :=
  set_validation_history
    (validation_history self ++ [mkLogEntry validation_type success message]) self.

(** The state after the two assignments that promote the structure stage. *)
Definition structure_promoted (full_path : string) (self : ValidationManager)
    : ValidationManager :=
  set_validated_structure_file (Some full_path) (set_structure_validated true self).

(** The state after the two assignments that demote the structure stage. *)
Definition structure_demoted (self : ValidationManager) : ValidationManager :=
  set_validated_structure_file None (set_structure_validated false self).

Definition system_demoted (self : ValidationManager) : ValidationManager :=
  set_validated_system_file None (set_system_prepared false self).

(** [x] occurs in [s] as a contiguous piece of text. *)
Definition occurs_in (x s : string) : Prop := ∃ pre suf, s = pre +:+ x +:+ suf.

(** The public operations of a [ValidationManager]. *)
Inductive Op : Type :=
  | OpValidateStructure (pdb_file : string)
  | OpCheckStructureStatus
  | OpMarkStructureValidated (pdb_file : string)
  | OpValidateForcefieldCoverage (pdb_file forcefield : string)
  | OpCheckForcefieldStatus
  | OpMarkForcefieldValidated (forcefield pdb_file : string)
  | OpValidateSystemPreparation (system_file : string)
  | OpCheckSystemReady
  | OpCheckWorkflowStatus
  | OpResetValidationState
  | OpRegisterValidationMethod (name : string) (method : Method)
  | OpValidate (name : string) (args : list string).

Section Operations.

Context (repr_set : gset string → string).

(** The state an operation leaves behind, whether it returned or raised. *)
Definition run_op (fs : gmap string FS.node) (op : Op)
    (self : ValidationManager) : ValidationManager :=
  match op with
  | OpValidateStructure f => (validate_structure repr_set fs f self).1
  | OpCheckStructureStatus => (check_structure_status fs self).1
  | OpMarkStructureValidated f => (mark_structure_validated fs f self).1
  | OpValidateForcefieldCoverage f ff =>
      (validate_forcefield_coverage repr_set fs f ff self).1
  | OpCheckForcefieldStatus => (check_forcefield_status self).1
  | OpMarkForcefieldValidated ff f => (mark_forcefield_validated ff f self).1
  | OpValidateSystemPreparation f => (validate_system_preparation fs f self).1
  | OpCheckSystemReady => (check_system_ready fs self).1
  | OpCheckWorkflowStatus => (check_workflow_status repr_set fs self).1
  | OpResetValidationState => (reset_validation_state self).1
  | OpRegisterValidationMethod name m => (register_validation_method name m self).1
  | OpValidate name args => (validate repr_set fs name args self).1
  end.

(** States reached from a fresh manager; the disk may differ from one
    operation to the next. *)
Inductive reachable : ValidationManager → Prop :=
  | reachable_init w : reachable (init w)
  | reachable_step fs op self :
      reachable self → reachable (run_op fs op self).

(** What one operation may do to the two structure fields: leave them,
    clear both, or set the flag together with a non-empty reference. *)
Definition structure_step (s s' : ValidationManager) : Prop :=
  (structure_validated s' = structure_validated s
   ∧ validated_structure_file s' = validated_structure_file s)
  ∨ (structure_validated s' = false ∧ validated_structure_file s' = None)
  ∨ (structure_validated s' = true
     ∧ ∃ p, validated_structure_file s' = Some p ∧ p ≠ "").

End Operations.

(** The message built from a non-empty list of issues. *)
Definition issues_message (c : Counts) : string :=
  "⚠️ System preparation issues:" +:+ nl +:+ "   "
    +:+ PyStr.join (nl +:+ "   ") (issues_of c).

(** The message for residue types the force field may not cover. *)
Definition coverage_gap_message (repr_set : gset string → string)
    (unknown : gset string) : string :=
  "⚠️ Force field may not cover residue types: " +:+ repr_set unknown +:+ nl
    +:+ "   Consider removing non-standard residues or adding parameters".

(** ** Export of the workflow state *)

Module WorkflowLog.

Section ExportEvents.

(** The type of Python [float] values; the export only carries them. *)
Context {float : Type}.

Local Unset Elimination Schemes.

(** JSON documents as [json.dump] writes and [json.load] reads them. *)
Inductive Json : Type :=
  | JNull
  | JBool (b : bool)
  | JInt (n : Z)
  | JFloat (x : float)
  | JString (s : string)
  | JList (l : list Json)
  | JObject (fields : list (string * Json)).

Local Set Elimination Schemes.

(** [WorkflowEvent]; [timestamp] holds the text [str] gives for the
    [datetime], which is what [default=str] writes, and [context] the
    document of the context dictionary. *)
Record WorkflowEvent : Type := mkWorkflowEvent {
  timestamp : string;
  event_type : string;
  agent_name : option string;
  tool_name : option string;
  status : string;
  message : string;
  context : Json;
  duration_ms : option float
}.

Record WorkflowState : Type := mkWorkflowState {
  structure_downloaded : bool;
  structure_cleaned : bool;
  structure_solvated : bool;
  forcefield_validated : bool;
  system_prepared : bool;
  simulation_running : bool;
  simulation_completed : bool;
  analysis_completed : bool;
  current_pdb_file : option string;
  current_forcefield : option string;
  current_trajectory : option string;
  last_error : option string;
  warnings : list string
}.

Record WorkflowLogger : Type := mkWorkflowLogger {
  workdir : string;
  events : list WorkflowEvent;
  state : WorkflowState;
  log_file : string
}.

Definition json_opt_string (o : option string) : Json :=
  match o with
  | Some s => JString s
  | None => JNull
  end.

Definition json_opt_float (o : option float) : Json :=
  match o with
  | Some x => JFloat x
  | None => JNull
  end.


(** [e.model_dump()] as [json.dump(..., default=str)] writes it. *)
Definition event_model_dump (e : WorkflowEvent) : Json :=
  JObject
    [ ("timestamp", JString (timestamp e));
      ("event_type", JString (event_type e));
      ("agent_name", json_opt_string (agent_name e));
      ("tool_name", json_opt_string (tool_name e));
      ("status", JString (status e));
      ("message", JString (message e));
      ("context", context e);
      ("duration_ms", json_opt_float (duration_ms e)) ].



(** The stage flags and references of a state. *)
Record StageSnapshot : Type := mkStageSnapshot {
  snap_structure_downloaded : bool;
  snap_structure_cleaned : bool;
  snap_structure_solvated : bool;
  snap_forcefield_validated : bool;
  snap_system_prepared : bool;
  snap_simulation_running : bool;
  snap_simulation_completed : bool;
  snap_analysis_completed : bool;
  snap_current_pdb_file : option string;
  snap_current_forcefield : option string;
  snap_current_trajectory : option string
}.

Definition snapshot (s : WorkflowState) : StageSnapshot :=
  mkStageSnapshot (structure_downloaded s) (structure_cleaned s)
    (structure_solvated s) (forcefield_validated s) (system_prepared s)
    (simulation_running s) (simulation_completed s) (analysis_completed s)
    (current_pdb_file s) (current_forcefield s) (current_trajectory s).






End ExportEvents.

End WorkflowLog.

(** One operation keeps the working directory and only adds to the
    history. *)
Definition extends (s s' : ValidationManager) : Prop :=
  workdir s' = workdir s
  ∧ ∃ new, validation_history s' = validation_history s ++ new
           ∧ length new ≤ 2.

(** ** Remaining methods of [ValidationManager] *)

(** ["=" * 50]. *)
Definition rule50 : string :=
  "==================================================".

(** [get_validation_summary]; it reads the state and nothing else. *)
Definition get_validation_summary : M string :=
  self <- get_self;;
  let summary := "📋 VALIDATION SUMMARY:" +:+ nl +:+ rule50 +:+ nl in
  let summary :=
    summary +:+ nl +:+ "🧬 Structure: "
      +:+ (if structure_validated self then "✅ Validated" else "❌ Not validated")
      +:+ nl in
  let summary :=
    if PyStr.truthy (validated_structure_file self) then
      summary +:+ "   File: "
        +:+ OsPath.basename (default "" (validated_structure_file self)) +:+ nl
    else summary in
  let summary :=
    summary +:+ nl +:+ "⚛️ Force Field: "
      +:+ (if forcefield_validated self then "✅ Validated" else "❌ Not validated")
      +:+ nl in
  let summary :=
    if PyStr.truthy (validated_forcefield self) then
      summary +:+ "   Name: " +:+ default "" (validated_forcefield self) +:+ nl
    else summary in
  let summary :=
    summary +:+ nl +:+ "🔬 System: "
      +:+ (if system_prepared self then "✅ Prepared" else "❌ Not prepared")
      +:+ nl in
  let summary :=
    if PyStr.truthy (validated_system_file self) then
      summary +:+ "   File: "
        +:+ OsPath.basename (default "" (validated_system_file self)) +:+ nl
    else summary in
  let ready := structure_validated self && forcefield_validated self in
  let summary := summary +:+ nl +:+ rule50 +:+ nl in
  let summary :=
    summary +:+ "🎯 Overall: "
      +:+ (if ready then "✅ READY FOR SIMULATION" else "❌ NOT READY") +:+ nl in
  ret summary.

Definition get_validation_history : M (list LogEntry) :=
  self <- get_self;;
  ret (validation_history self).

(** ** The validation decorators *)

(** An object that may carry a [validation_manager] attribute next to
    state of its own; [None] stands both for a missing attribute and for
    an attribute that holds [None]. *)
Record Host (S : Type) : Type := mkHost {
  host_state : S;
  validation_manager : option ValidationManager
}.

Arguments mkHost {S} _ _.
Arguments host_state {S} _.
Arguments validation_manager {S} _.

(** What a decorated call returns: the refusal text of the wrapper or
    the value of the wrapped function. *)
Inductive Guarded (A : Type) : Type :=
  | Refused (msg : string)
  | Ran (a : A).

Arguments Refused {A} _.
Arguments Ran {A} _.

(** The call [func(self, *args, **kwargs)] at the end of each wrapper. *)
Definition run_wrapped {S A} (func : Host S → Host S * (Exn + A))
    (self : Host S) : Host S * (Exn + Guarded A) :=
  match func self with
  | (self', inr a) => (self', inr (Ran a))
  | (self', inl e) => (self', inl e)
  end.

Definition require_structure {S A} (func : Host S → Host S * (Exn + A))
    (self : Host S) : Host S * (Exn + Guarded A) :=
  match validation_manager self with
  | Some vm =>
      if negb (structure_validated vm) then
        (self, inr (Refused "❌ Structure validation required before this operation"))
      else run_wrapped func self
  | None => run_wrapped func self
  end.

Definition require_forcefield {S A} (func : Host S → Host S * (Exn + A))
    (self : Host S) : Host S * (Exn + Guarded A) :=
  match validation_manager self with
  | Some vm =>
      if negb (forcefield_validated vm) then
        (self, inr (Refused "❌ Force field validation required before this operation"))
      else run_wrapped func self
  | None => run_wrapped func self
  end.

Section Decorators.

Context (repr_set : gset string → string).

(** [require_workflow_ready]: the gate runs on the manager of the host
    and leaves its effects there before the wrapped function is called. *)
Definition require_workflow_ready {S A} (fs : gmap string FS.node)
    (func : Host S → Host S * (Exn + A))
    (self : Host S) : Host S * (Exn + Guarded A) :=
  match validation_manager self with
  | Some vm =>
      match check_workflow_status repr_set fs vm with
      | (vm', inl e) => (mkHost (host_state self) (Some vm'), inl e)
      | (vm', inr (ready, msg)) =>
          let self' := mkHost (host_state self) (Some vm') in
          if negb ready then
            (self', inr (Refused ("❌ Workflow not ready: " +:+ msg)))
          else run_wrapped func self'
      end
  | None => run_wrapped func self
  end.

(** ** The wrappers of the function registry *)

(** [check_workflow_status] as [register_simulation_functions] wraps it
    for the agents; the argument is the registry's [validation_manager]. *)
Definition sim_check_workflow_status (fs : gmap string FS.node)
    (validation_manager : option ValidationManager)
    : option ValidationManager * (Exn + string) :=
  match validation_manager with
  | Some vm =>
      match check_workflow_status repr_set fs vm with
      | (vm', inr (can_continue, message)) => (Some vm', inr message)
      | (vm', inl e) =>
          (Some vm', inr ("Workflow status check error: " +:+ str_exn e))
      end
  | None => (None, inr "ValidationManager not available")
  end.

(** [check_workflow_status] as [register_validation_functions] wraps it;
    that method registers nothing without a manager. *)
Definition val_check_workflow_status (fs : gmap string FS.node) : M string :=
  r <- check_workflow_status repr_set fs;;
  ret r.2.

End Decorators.

(** ** Operations of the workflow logger *)

Module WorkflowOps.

Import WorkflowLog.

Section LoggerOps.

Context {float : Type}.

(** Readings of [datetime.now()], the text [str] gives for one, and
    [(later - earlier).total_seconds() * 1000]. *)
Context {time : Type} (str_time : time → string)
  (elapsed_ms : time → time → float).

(** A [WorkflowLogger] with the two parts of its state that the export
    does not read: the start times of running operations and the events
    whose line reached [log_file]. *)
Record LoggerObj : Type := mkLoggerObj {
  logger : @WorkflowLogger float;
  _operation_start_times : gmap string time;
  log_lines : list (@WorkflowEvent float)
}.

Definition set_events (evs : list (@WorkflowEvent float))
    (l : @WorkflowLogger float) : @WorkflowLogger float :=
  mkWorkflowLogger (workdir l) evs (state l) (log_file l).

Definition set_state (s : WorkflowState)
    (l : @WorkflowLogger float) : @WorkflowLogger float :=
  mkWorkflowLogger (workdir l) (events l) s (log_file l).

Definition set_last_error (o : option string) (s : WorkflowState) : WorkflowState :=
  mkWorkflowState (structure_downloaded s) (structure_cleaned s)
    (structure_solvated s) (forcefield_validated s) (system_prepared s)
    (simulation_running s) (simulation_completed s) (analysis_completed s)
    (current_pdb_file s) (current_forcefield s) (current_trajectory s)
    o (warnings s).

(** [_log_event]: the event is stored in memory, then its line is
    appended to the log file; [write_ok] tells whether that append went
    through, and an append that raised is only printed. *)
Definition _log_event (write_ok : bool) (event : @WorkflowEvent float)
    (self : LoggerObj) : LoggerObj :=
  mkLoggerObj
    (set_events (events (logger self) ++ [event]) (logger self))
    (_operation_start_times self)
    (if write_ok then log_lines self ++ [event] else log_lines self).

(** [context or {}]. *)
Definition context_or_empty (context : option (list (string * @Json float)))
    : @Json float :=
  match context with
  | Some (f :: fields) => JObject (f :: fields)
  | _ => JObject []
  end.

Definition log_agent_call (write_ok : bool) (now : time)
    (agent_name message : string)
    (context : option (list (string * @Json float)))
    (self : LoggerObj) : LoggerObj :=
  _log_event write_ok
    (mkWorkflowEvent (str_time now) "agent_call" (Some agent_name) None
       "started" message (context_or_empty context) None)
    self.

(** [result[:500] if len(result) > 500 else result]; a result is text
    made by the program and is measured in characters. *)
Definition truncate_result (result : string) : string :=
  if 500 <? PyStr.len_chars result then PyStr.take_chars 500 result else result.

(** [log_tool_invocation]; [now] is the reading taken for the duration
    and [stamp] the one taken when the event is built. *)
Definition log_tool_invocation (write_ok : bool) (now stamp : time)
    (tool_name : string) (params : list (string * @Json float))
    (result status : string) (self : LoggerObj) : LoggerObj :=
  let duration_ms :=
    (λ start, elapsed_ms now start) <$> _operation_start_times self !! tool_name in
  let self :=
    mkLoggerObj (logger self) (delete tool_name (_operation_start_times self))
      (log_lines self) in
  _log_event write_ok
    (mkWorkflowEvent (str_time stamp) "tool_invocation" None (Some tool_name)
       status (truncate_result result) (JObject [("params", JObject params)])
       duration_ms)
    self.

Definition log_validation_gate (write_ok : bool) (now : time)
    (gate_name : string) (passed : bool) (reason : string)
    (self : LoggerObj) : LoggerObj :=
  let self :=
    _log_event write_ok
      (mkWorkflowEvent (str_time now) "validation_gate" None None
         (if passed then "success" else "failed")
         ("Gate '" +:+ gate_name +:+ "': " +:+ reason)
         (JObject [("gate_name", JString gate_name); ("passed", JBool passed)])
         None)
      self in
  if negb passed then
    mkLoggerObj
      (set_state
         (set_last_error
            (Some ("Validation failed: " +:+ gate_name +:+ " - " +:+ reason))
            (state (logger self)))
         (logger self))
      (_operation_start_times self) (log_lines self)
  else self.

Definition start_operation (now : time) (operation_name : string)
    (self : LoggerObj) : LoggerObj :=
  mkLoggerObj (logger self)
    (<[operation_name := now]> (_operation_start_times self)) (log_lines self).

(** [l[start:]] for any integer [start]. *)
Definition slice_from {A} (start : Z) (l : list A) : list A :=
  if (start <? 0)%Z then drop (Z.to_nat (Z.of_nat (length l) + start)) l
  else drop (Z.to_nat start) l.

(** [get_recent_events(count)]: the dumps of [self.events[-count:]]. *)
Definition get_recent_events (count : Z) (self : LoggerObj) : list (@Json float) :=
  event_model_dump <$> slice_from (- count) (events (logger self)).

Definition get_errors (self : LoggerObj) : list (@WorkflowEvent float) :=
  List.filter (λ e, bool_decide (status e = "failed")) (events (logger self)).

(** The state a [WorkflowState()] starts with. *)
Definition initial_state : WorkflowState :=
  mkWorkflowState false false false false false false false false
    None None None None [].

(** [WorkflowLogger(workdir)] for a working directory that
    [os.makedirs] accepts; [stamp] is the text of
    [strftime("%Y%m%d_%H%M%S")] at construction. *)
Definition init (write_ok : bool) (now : time) (stamp : string)
    (workdir : string) : LoggerObj :=
  let log_file := OsPath.join workdir ("workflow_log_" +:+ stamp +:+ ".jsonl") in
  _log_event write_ok
    (mkWorkflowEvent (str_time now) "system" None None "started"
       "WorkflowLogger initialized"
       (JObject [("workdir", JString workdir); ("log_file", JString log_file)])
       None)
    (mkLoggerObj (mkWorkflowLogger workdir [] initial_state log_file) ∅ []).

(** The calls that change a logger. *)
Inductive LogOp : Type :=
  | OpLogAgentCall (write_ok : bool) (now : time) (agent_name message : string)
      (context : option (list (string * @Json float)))
  | OpLogToolInvocation (write_ok : bool) (now stamp : time) (tool_name : string)
      (params : list (string * @Json float)) (result status : string)
  | OpLogValidationGate (write_ok : bool) (now : time) (gate_name : string)
      (passed : bool) (reason : string)
  | OpStartOperation (now : time) (operation_name : string).

Definition run_log_op (self : LoggerObj) (op : LogOp) : LoggerObj :=
  match op with
  | OpLogAgentCall w now a m c => log_agent_call w now a m c self
  | OpLogToolInvocation w now stamp t ps r st =>
      log_tool_invocation w now stamp t ps r st self
  | OpLogValidationGate w now g b r => log_validation_gate w now g b r self
  | OpStartOperation now n => start_operation now n self
  end.

(** Whether the call logs an event, and whether its line was written. *)
Definition logs_event (op : LogOp) : bool :=
  match op with
  | OpStartOperation _ _ => false
  | _ => true
  end.

Definition line_written (op : LogOp) : bool :=
  match op with
  | OpLogAgentCall w _ _ _ _ => w
  | OpLogToolInvocation w _ _ _ _ _ _ => w
  | OpLogValidationGate w _ _ _ _ => w
  | OpStartOperation _ _ => true
  end.

End LoggerOps.

End WorkflowOps.

(** ** Data for the worked examples *)

(** One admissible printer for sets: the elements in the order
    [elements] lists them, each in single quotes. *)
Definition repr_set_elements (s : gset string) : string :=
  "{" +:+ PyStr.join ", " ((λ x, "'" +:+ x +:+ "'") <$> elements s) +:+ "}".

Definition text_of_lines (lines : list string) : string := PyStr.join nl lines.

(** Twelve records of one alanine with N, CA and C among the atom names. *)
Definition pdb_ok : string :=
  text_of_lines
    ([ "ATOM      1  N   ALA A   1";
       "ATOM      2  CA  ALA A   1";
       "ATOM      3  C   ALA A   1" ]
     ++ replicate 9 "ATOM      4  O   ALA A   1").



(** A prepared system with 100 protein atoms, 50 water atoms, no ions. *)
Definition system_low_water : string :=
  text_of_lines
    (replicate 100 "ATOM      4  O   ALA A   1"
     ++ replicate 50 "ATOM    101  O   HOH A   2").

Definition fs_ok : gmap string FS.node :=
  <["/w" := FS.Dir (inr ["a.pdb"])]> (<["/w/a.pdb" := FS.File (inr pdb_ok)]> ∅).



Definition fs_system : gmap string FS.node :=
  <["/w" := FS.Dir (inr ["system.pdb"])]>
    (<["/w/system.pdb" := FS.File (inr system_low_water)]> ∅).

(** A system with 3 protein atoms, 50 water atoms and no ions. *)
Definition system_three_issues : string :=
  text_of_lines
    (replicate 3 "ATOM      4  O   ALA A   1"
     ++ replicate 50 "ATOM    101  O   HOH A   2").

Definition fs_three_issues : gmap string FS.node :=
  <["/w" := FS.Dir (inr ["system.pdb"])]>
    (<["/w/system.pdb" := FS.File (inr system_three_issues)]> ∅).

(** A prepared system with 100 protein atoms, 100 water atoms, one ion. *)
Definition system_ready : string :=
  text_of_lines
    (replicate 100 "ATOM      4  O   ALA A   1"
     ++ replicate 100 "ATOM    101  O   HOH A   2"
     ++ [ "HETATM  201  NA  NA  A   3" ]).

(** A working directory with two structures and a prepared system. *)
Definition fs_full : gmap string FS.node :=
  <["/w" := FS.Dir (inr ["old.pdb"; "a.pdb"; "system.pdb"])]>
    (<["/w/old.pdb" := FS.File (inr pdb_ok)]>
      (<["/w/a.pdb" := FS.File (inr pdb_ok)]>
        (<["/w/system.pdb" := FS.File (inr system_ready)]> ∅))).

(** A relative working directory [w] that holds [a.pdb] and a directory
    [w] of its own with another [a.pdb]. *)
Definition fs_relative : gmap string FS.node :=
  <["w" := FS.Dir (inr ["a.pdb"; "w"])]>
    (<["w/a.pdb" := FS.File (inr pdb_ok)]>
      (<["w/w" := FS.Dir (inr ["a.pdb"])]>
        (<["w/w/a.pdb" := FS.File (inr pdb_ok)]> ∅))).

(** A relative working directory [w] that holds [a.pdb] and nothing
    else. *)
Definition fs_relative_plain : gmap string FS.node :=
  <["w" := FS.Dir (inr ["a.pdb"])]> (<["w/a.pdb" := FS.File (inr pdb_ok)]> ∅).

(** A working directory path that names a regular file. *)
Definition fs_workdir_is_file : gmap string FS.node :=
  <["/w" := FS.File (inr "")]> ∅.

(** Ten records of an alanine on the chain named [_], none of them a
    backbone atom. *)
Definition pdb_underscore_chain : string :=
  text_of_lines (replicate 10 "ATOM      4  O   ALA _   1").

Definition fs_underscore_chain : gmap string FS.node :=
  <["/w" := FS.Dir (inr ["a.pdb"])]>
    (<["/w/a.pdb" := FS.File (inr pdb_underscore_chain)]> ∅).

(** Ten water records and nothing else. *)
Definition pdb_water_only : string :=
  text_of_lines (replicate 10 "ATOM    101  O   HOH A   2").

Definition fs_water : gmap string FS.node :=
  <["/w" := FS.Dir (inr ["water.pdb"])]>
    (<["/w/water.pdb" := FS.File (inr pdb_water_only)]> ∅).

(** A file that exists and holds no text at all. *)
Definition fs_empty_file : gmap string FS.node :=
  <["/w" := FS.Dir (inr ["empty.pdb"])]>
    (<["/w/empty.pdb" := FS.File (inr "")]> ∅).

(** A logger whose clock counts milliseconds in [nat]. *)
Definition example_logger : @WorkflowOps.LoggerObj nat nat :=
  WorkflowOps.init PyStr.of_nat true 0 "20260101_000000" "/w".

(** * Properties *)

Ltac unfold_m :=
  unfold bind, ret, raise, update, get_self, lift, try_except, _log_validation in *.

Section ValidatorShapes.

Context (repr_set : gset string → string).

(** [validate_structure] never raises; it either logs a failure and
    leaves the flags alone, or promotes the stage to the resolved path
    and logs a success. *)
Lemma validate_structure_cases fs pdb_file self :
  ∃ msg,
    validate_structure repr_set fs pdb_file self
      = (logged "structure" false msg self, inr (false, msg))
    ∨ (FS.exists_ fs (full_path_of self pdb_file) = true
       ∧ validate_structure repr_set fs pdb_file self
         = (logged "structure" true msg
              (structure_promoted (full_path_of self pdb_file) self),
            inr (true, msg))).
Proof.
  unfold validate_structure. unfold_m.
  destruct (FS.exists_ fs (full_path_of self pdb_file)) eqn:Hex; simpl.
  2: { eexists; left; reflexivity. }
  destruct (FS.read_text fs (full_path_of self pdb_file)) as [e|content]; simpl.
  { eexists; left; reflexivity. }
  destruct (_ <? 10); simpl.
  { eexists; left; reflexivity. }
  destruct (foldM add_residue _ _) as [e|rc]; simpl.
  { eexists; left; reflexivity. }
  destruct (filterM is_aa_residue _) as [e|aa]; simpl.
  { eexists; left; reflexivity. }
  destruct (_ && _); simpl.
  - eexists; left; reflexivity.
  - eexists; right; split; [done|reflexivity].
Qed.

End ValidatorShapes.

(** ** The gate: demotion *)

Lemma truthy_Some_ne p : p ≠ "" → PyStr.truthy (Some p) = true.
Proof. by destruct p. Qed.

Lemma exists_empty fs : FS.exists_ fs "" = false.
Proof. reflexivity. Qed.

Lemma exists_true_ne fs p : FS.exists_ fs p = true → p ≠ "".
Proof. intros H ->. by rewrite exists_empty in H. Qed.

Section Demotion.

Context (repr_set : gset string → string).

(** The structure check on a validated stage whose file is gone: the
    two fields are cleared, nothing is searched and nothing is logged. *)
Lemma check_structure_stage_missing fs self p :
  structure_validated self = true →
  validated_structure_file self = Some p →
  p ≠ "" →
  FS.exists_ fs p = false →
  check_structure_stage repr_set fs self
    = (structure_demoted self, inr ("❌ Structure file missing", false)).
Proof.
  intros Hv Hf Hp Hex. unfold check_structure_stage. unfold_m.
  rewrite Hv, Hf, (truthy_Some_ne p Hp). simpl. by rewrite Hex.
Qed.

(** The whole gate in that situation. *)
Lemma check_workflow_status_missing fs self p :
  structure_validated self = true →
  validated_structure_file self = Some p →
  p ≠ "" →
  FS.exists_ fs p = false →
  ∃ line,
    (check_forcefield_stage (structure_demoted self)).2 = inr line ∧
    check_workflow_status repr_set fs self
      = (logged "workflow" false
           (final_message false ["❌ Structure file missing"; line.1])
           (structure_demoted self),
         inr (false, final_message false ["❌ Structure file missing"; line.1])).
Proof.
  intros Hv Hf Hp Hex. unfold check_workflow_status.
  unfold bind at 1. rewrite (check_structure_stage_missing fs self p) by done.
  unfold check_forcefield_stage. unfold_m. simpl.
  destruct (forcefield_validated self && PyStr.truthy (validated_forcefield self));
    simpl; eexists; split; reflexivity.
Qed.

(** C1. Demotion invariant: when the stage is marked validated and the
    stored file name [p] is absent from disk, [check_workflow_status]
    returns with [structure_validated = False] and
    [validated_structure_file = None], answers [False] and reports
    "Structure file missing"; likewise [check_system_ready] clears
    [system_prepared] and [validated_system_file] and answers [False]. *)
Theorem demotion_invariant fs self p :
  p ≠ "" →
  FS.exists_ fs p = false →
  (structure_validated self = true →
   validated_structure_file self = Some p →
   ∃ msg,
     let r := check_workflow_status repr_set fs self in
     structure_validated r.1 = false
     ∧ validated_structure_file r.1 = None
     ∧ r.2 = inr (false, msg)
     ∧ occurs_in "❌ Structure file missing" msg
     ∧ last (validation_history r.1) = Some (mkLogEntry "workflow" false msg))
  ∧ (system_prepared self = true →
     validated_system_file self = Some p →
     let r := check_system_ready fs self in
     system_prepared r.1 = false
     ∧ validated_system_file r.1 = None
     ∧ r.2 = inr (false, "❌ Prepared system file no longer exists")).
Proof.
  intros Hp Hex. split.
  - intros Hv Hf.
    destruct (check_workflow_status_missing fs self p Hv Hf Hp Hex)
      as (line & _ & ->).
    eexists. simpl. repeat split.
    + exists ("❌ WORKFLOW HALTED - Prerequisites not met:" +:+ nl +:+ "   "),
             (nl +:+ "   " +:+ line.1).
      reflexivity.
    + by rewrite last_snoc.
  - intros Hv Hf. unfold check_system_ready. unfold_m.
    rewrite Hv, Hf, (truthy_Some_ne p Hp). simpl. by rewrite Hex.
Qed.

End Demotion.

(** ** The gate: discovery *)

Lemma append_cons c s t : String c s +:+ t = String c (s +:+ t).
Proof. reflexivity. Qed.

Lemma append_assoc (a b c : string) : (a +:+ b) +:+ c = a +:+ b +:+ c.
Proof. induction a as [|x a IH]; [done|]. by rewrite !append_cons, IH. Qed.

Lemma prefix_app p s x :
  String.prefix p s = true → String.prefix p (s +:+ x) = true.
Proof.
  revert s. induction p as [|a p IH]; intros s.
  { intros _. by destruct (s +:+ x). }
  destruct s as [|c s]; cbn [String.prefix]; [done|].
  change (String c s +:+ x) with (String c (s +:+ x)). cbn [String.prefix].
  destruct (ascii_dec a c); [apply IH|done].
Qed.

Lemma isabs_join w name : OsPath.isabs w = true → OsPath.isabs (OsPath.join w name) = true.
Proof.
  unfold OsPath.isabs, OsPath.join, PyStr.startswith. intros Hw.
  destruct (String.prefix "/" name) eqn:Hn; [done|].
  destruct (_ || _); by apply prefix_app.
Qed.

Lemma isabs_ne p : OsPath.isabs p = true → p ≠ "".
Proof. by intros H ->. Qed.

Lemma full_path_of_abs self p : OsPath.isabs p = true → full_path_of self p = p.
Proof. unfold full_path_of. by intros ->. Qed.

Lemma find_pdb_files_state fs self : (_find_pdb_files fs self).1 = self.
Proof.
  unfold _find_pdb_files. unfold_m.
  destruct (FS.exists_ fs (workdir self)); [|done].
  by destruct (FS.listdir fs (workdir self)).
Qed.

Lemma find_pdb_files_abs fs self l c :
  OsPath.isabs (workdir self) = true →
  (_find_pdb_files fs self).2 = inr l →
  c ∈ l →
  OsPath.isabs c = true.
Proof.
  intros Hw. unfold _find_pdb_files. unfold_m.
  destruct (FS.exists_ fs (workdir self)); simpl.
  - destruct (FS.listdir fs (workdir self)) as [e|names]; simpl; [done|].
    intros [= <-] (name & -> & _)%list_elem_of_fmap. by apply isabs_join.
  - intros [= <-] ?%elem_of_nil. done.
Qed.

Section Discovery.

Context (repr_set : gset string → string).

Lemma check_forcefield_stage_pure self :
  ∃ line, check_forcefield_stage self = (self, inr line).
Proof.
  unfold check_forcefield_stage. unfold_m.
  destruct (_ && _); eexists; reflexivity.
Qed.

(** The structure check on an unvalidated stage is the discovery branch. *)
Lemma check_structure_stage_unvalidated fs self :
  structure_validated self = false →
  check_structure_stage repr_set fs self = auto_discover repr_set fs self.
Proof. intros Hv. unfold check_structure_stage. unfold_m. by rewrite Hv. Qed.

(** The structure check on a validated stage whose file is present
    reads the stored reference only. *)
Lemma check_structure_stage_present fs self p :
  structure_validated self = true →
  validated_structure_file self = Some p →
  FS.exists_ fs p = true →
  check_structure_stage repr_set fs self
    = (self, inr ("✅ Structure: " +:+ OsPath.basename p, true)).
Proof.
  intros Hv Hf Hex. unfold check_structure_stage. unfold_m.
  rewrite Hv, Hf, (truthy_Some_ne p (exists_true_ne _ _ Hex)). simpl.
  by rewrite Hex.
Qed.

(** C3 (amended). When the stage is marked validated and the stored
    file is gone, [check_workflow_status] clears flag and reference,
    reports "Structure file missing" and logs one failed "workflow"
    record, and that is all it does: it neither lists the working
    directory nor runs the structure validator in that call.  Discovery
    is what the structure check of the next call does. *)
Theorem demotion_defers_discovery fs self p :
  structure_validated self = true →
  validated_structure_file self = Some p →
  p ≠ "" →
  FS.exists_ fs p = false →
  ∃ msg,
    check_workflow_status repr_set fs self
      = (logged "workflow" false msg (structure_demoted self), inr (false, msg))
    ∧ occurs_in "❌ Structure file missing" msg
    ∧ ∀ fs',
        check_structure_stage repr_set fs'
          (logged "workflow" false msg (structure_demoted self))
        = auto_discover repr_set fs'
            (logged "workflow" false msg (structure_demoted self)).
Proof.
  intros Hv Hf Hp Hex.
  destruct (check_workflow_status_missing repr_set fs self p Hv Hf Hp Hex)
    as (line & _ & Heq).
  eexists. split; [exact Heq|]. split.
  - exists ("❌ WORKFLOW HALTED - Prerequisites not met:" +:+ nl +:+ "   "),
           (nl +:+ "   " +:+ line.1).
    reflexivity.
  - intros fs'. by apply check_structure_stage_unvalidated.
Qed.

(** Auto-discovery with an absolute working directory, the setting
    in which the gate does what C6 says.  With an unvalidated
    structure stage and exactly one [.pdb] candidate that
    [validate_structure] accepts, [check_workflow_status] promotes the
    stage with the candidate as stored reference; a following call made
    while that file exists reports the structure from the stored
    reference, whatever the directory listing and the file content are
    by then, and changes nothing but the history. *)
Theorem auto_discovery_monotone fs self cand msg :
  OsPath.isabs (workdir self) = true →
  structure_validated self = false →
  _find_pdb_files fs self = (self, inr [cand]) →
  (validate_structure repr_set fs cand self).2 = inr (true, msg) →
  let s1 := (check_workflow_status repr_set fs self).1 in
  structure_validated s1 = true
  ∧ validated_structure_file s1 = Some cand
  ∧ ∀ fs2, FS.exists_ fs2 cand = true →
      ∃ ok msg2,
        check_workflow_status repr_set fs2 s1
          = (logged "workflow" ok msg2 s1, inr (ok, msg2))
        ∧ occurs_in ("✅ Structure: " +:+ OsPath.basename cand +:+ nl) msg2.
Proof.
  intros Hw Hv Hfind Hval.
  assert (Habs : OsPath.isabs cand = true).
  { apply (find_pdb_files_abs fs self [cand]); [done| |set_solver].
    by rewrite Hfind. }
  destruct (validate_structure_cases repr_set fs cand self) as (m & [Hc|[_ Hc]]);
    rewrite Hc in Hval; simplify_eq/=.
  rewrite (full_path_of_abs _ _ Habs) in Hc.
  assert (Hs1 : ∃ ok m1,
    (check_workflow_status repr_set fs self).1
      = logged "workflow" ok m1
          (logged "structure" true msg (structure_promoted cand self))).
  { unfold check_workflow_status. unfold bind at 1.
    rewrite check_structure_stage_unvalidated by done.
    unfold auto_discover. unfold bind at 1. rewrite Hfind.
    unfold bind at 1. rewrite Hc. simpl. unfold ret at 1.
    unfold bind at 1.
    destruct (check_forcefield_stage
      (logged "structure" true msg (structure_promoted cand self)))
      as [s' r] eqn:Hff.
    destruct (check_forcefield_stage_pure
      (logged "structure" true msg (structure_promoted cand self)))
      as (line & Hline).
    rewrite Hline in Hff. simplify_eq. unfold_m. simpl.
    eexists _, _. reflexivity. }
  destruct Hs1 as (ok1 & m1 & Hs1). simpl. rewrite Hs1.
  split; [done|]. split; [done|].
  intros fs2 Hex2.
  set (s1 := logged "workflow" ok1 m1 _).
  unfold check_workflow_status. unfold bind at 1.
  rewrite (check_structure_stage_present fs2 s1 cand) by done.
  unfold bind at 1.
  destruct (check_forcefield_stage_pure s1) as (line & ->).
  unfold_m. simpl. eexists _, _. split; [reflexivity|].
  unfold final_message. destruct (line.2).
  - exists ("✅ WORKFLOW READY - All prerequisites met:" +:+ nl +:+ "   "),
           ("   " +:+ line.1).
    by rewrite !append_assoc.
  - exists ("❌ WORKFLOW HALTED - Prerequisites not met:" +:+ nl +:+ "   "),
           ("   " +:+ line.1).
    by rewrite !append_assoc.
Qed.

End Discovery.

(** ** Manual marks *)

(** C10. [mark_forcefield_validated] consults neither the disk nor the
    list of known force fields: for every pair of arguments it sets
    [forcefield_validated], stores the name and answers with the success
    message, whereas [mark_structure_validated] answers with a refusal
    and leaves the state as it was when its file is absent. *)
Theorem mark_forcefield_validated_unconditional forcefield pdb_file self :
  let r := mark_forcefield_validated forcefield pdb_file self in
  forcefield_validated r.1 = true
  ∧ validated_forcefield r.1 = Some forcefield
  ∧ r.2 = inr ("✅ Force field marked as validated: " +:+ forcefield)
  ∧ ∀ fs,
      FS.exists_ fs (full_path_of self pdb_file) = false →
      mark_structure_validated fs pdb_file self
        = (self, inr ("❌ Cannot mark as validated - file not found: " +:+ pdb_file)).
Proof.
  repeat split. intros fs Hex.
  unfold mark_structure_validated. unfold_m. by rewrite Hex.
Qed.

(** ** Reachable states *)

Section Reachable.

Context (repr_set : gset string → string).

Lemma step_validate_structure fs f self :
  structure_step self (validate_structure repr_set fs f self).1.
Proof.
  destruct (validate_structure_cases repr_set fs f self) as (m & [->|[Hex ->]]).
  - by left.
  - right; right. split; [done|]. eexists; split; [done|].
    by eapply exists_true_ne.
Qed.

Lemma step_check_structure_status fs self :
  structure_step self (check_structure_status fs self).1.
Proof.
  unfold check_structure_status. unfold_m.
  destruct (_ && _); [|by left]. simpl.
  destruct (FS.exists_ _ _); [by left|by right; left].
Qed.

Lemma step_mark_structure_validated fs f self :
  structure_step self (mark_structure_validated fs f self).1.
Proof.
  unfold mark_structure_validated. unfold_m.
  destruct (FS.exists_ fs (full_path_of self f)) eqn:Hex; simpl; [|by left].
  right; right. split; [done|]. eexists; split; [done|].
  by eapply exists_true_ne.
Qed.

Lemma step_validate_forcefield_coverage fs f ff self :
  structure_step self (validate_forcefield_coverage repr_set fs f ff self).1.
Proof.
  unfold validate_forcefield_coverage. unfold_m.
  destruct (FS.exists_ _ _); simpl; [|by left].
  destruct (known_ff _); simpl; [|by left].
  destruct (FS.read_text _ _); simpl; [by left|].
  destruct (_ && _); by left.
Qed.

Lemma step_validate_system_preparation fs f self :
  structure_step self (validate_system_preparation fs f self).1.
Proof.
  unfold validate_system_preparation. unfold_m.
  destruct (FS.exists_ _ _); simpl; [|by left].
  destruct (FS.read_text _ _); simpl; [by left|].
  destruct (negb _); by left.
Qed.

Lemma step_check_system_ready fs self :
  structure_step self (check_system_ready fs self).1.
Proof.
  unfold check_system_ready. unfold_m.
  destruct (_ && _); [|by left]. simpl.
  destruct (FS.exists_ _ _); by left.
Qed.

Lemma step_auto_discover fs self :
  structure_step self (auto_discover repr_set fs self).1.
Proof.
  unfold auto_discover. unfold bind at 1.
  pose proof (find_pdb_files_state fs self) as Hst.
  destruct (_find_pdb_files fs self) as [s' [e|[|first rest]]];
    simpl in Hst; subst s'; try by left.
  unfold bind.
  pose proof (step_validate_structure fs first self) as Hstep.
  destruct (validate_structure repr_set fs first self) as [s' [e|[b m]]];
    simpl in *; [done|].
  by destruct b.
Qed.

Lemma step_check_workflow_status fs self :
  structure_step self (check_workflow_status repr_set fs self).1.
Proof.
  assert (Hstage : structure_step self (check_structure_stage repr_set fs self).1).
  { unfold check_structure_stage. unfold bind at 1. unfold get_self.
    destruct (_ && _).
    - unfold_m. destruct (FS.exists_ _ _); [by left|by right; left].
    - apply step_auto_discover. }
  unfold check_workflow_status. unfold bind at 1.
  destruct (check_structure_stage repr_set fs self) as [s' [e|line]];
    simpl in Hstage; [done|].
  unfold bind at 1.
  destruct (check_forcefield_stage_pure s') as (ffline & ->).
  done.
Qed.

Lemma step_validate fs name args self :
  structure_step self (validate repr_set fs name args self).1.
Proof.
  unfold validate. unfold bind, get_self.
  destruct (validation_methods self !! name) as [m|]; [|by left].
  destruct m, args as [|a [|b [|c args]]]; simpl; try by left.
  - apply step_validate_structure.
  - apply step_validate_forcefield_coverage.
  - apply step_validate_forcefield_coverage.
  - apply step_check_workflow_status.
  - apply step_check_system_ready.
Qed.

Lemma step_run_op fs op self : structure_step self (run_op repr_set fs op self).
Proof.
  destruct op; simpl.
  - apply step_validate_structure.
  - apply step_check_structure_status.
  - apply step_mark_structure_validated.
  - apply step_validate_forcefield_coverage.
  - unfold check_forcefield_status. unfold_m. destruct (_ && _); by left.
  - by left.
  - apply step_validate_system_preparation.
  - apply step_check_system_ready.
  - apply step_check_workflow_status.
  - by right; left.
  - by left.
  - apply step_validate.
Qed.

(** On reachable states a set flag comes with a non-empty reference. *)
Lemma reachable_truthy self :
  reachable repr_set self →
  structure_validated self = true →
  PyStr.truthy (validated_structure_file self) = true.
Proof.
  induction 1 as [w|fs op self Hr IH]; [done|].
  destruct (step_run_op fs op self) as [[-> ->]|[[-> _]|[_ (p & -> & Hp)]]];
    [done|done|].
  intros _. by apply truthy_Some_ne.
Qed.

(** C7. Flag and reference of the structure stage stay coupled: in
    every state reachable from a fresh manager by the operations of the
    class, a set [structure_validated] comes with a stored
    [validated_structure_file]; and an operation that finds the flag
    set and returns with it cleared returns with the reference cleared
    as well. *)
Theorem flag_reference_coupling self :
  reachable repr_set self →
  (structure_validated self = true → validated_structure_file self ≠ None)
  ∧ ∀ fs op,
      structure_validated self = true →
      structure_validated (run_op repr_set fs op self) = false →
      validated_structure_file (run_op repr_set fs op self) = None.
Proof.
  intros Hr. split.
  - intros Hv Hnone. apply (reachable_truthy self Hr) in Hv.
    by rewrite Hnone in Hv.
  - intros fs op Hv Hcl.
    destruct (step_run_op fs op self) as [[Hf _]|[[_ Hn]|[Hf _]]];
      [congruence|done|congruence].
Qed.

End Reachable.

(** ** System preparation: every issue is reported *)

Lemma append_empty_r s : s +:+ "" = s.
Proof. induction s as [|c s IH]; [done|]. by rewrite append_cons, IH. Qed.

Lemma occurs_in_refl x : occurs_in x x.
Proof. exists "", "". by rewrite append_empty_r. Qed.

Lemma occurs_in_app_l x pre s : occurs_in x s → occurs_in x (pre +:+ s).
Proof.
  intros (a & b & ->). exists (pre +:+ a), b. by rewrite append_assoc.
Qed.

Lemma occurs_in_app_r x s suf : occurs_in x s → occurs_in x (s +:+ suf).
Proof.
  intros (a & b & ->). exists a, (b +:+ suf). by rewrite !append_assoc.
Qed.

(** Every element of a joined list occurs in the joined text. *)
Lemma occurs_in_join sep (l : list string) x :
  x ∈ l → occurs_in x (PyStr.join sep l).
Proof.
  induction l as [|y l IH]; [by intros ?%elem_of_nil|].
  intros [->|Hin]%elem_of_cons.
  - destruct l as [|z l]; [apply occurs_in_refl|].
    cbn [PyStr.join]. apply occurs_in_app_r, occurs_in_refl.
  - destruct l as [|z l]; [by apply elem_of_nil in Hin|].
    cbn [PyStr.join]. by apply occurs_in_app_l, occurs_in_app_l, IH.
Qed.

Lemma issues_of_nil c :
  issues_of c = [] ↔ ¬ (protein_atoms c < 100 ∨ water_count c < 100 ∨ ion_count c = 0).
Proof.
  unfold issues_of.
  destruct (Nat.ltb_spec (protein_atoms c) 100),
    (Nat.ltb_spec (water_count c) 100), (Nat.eqb_spec (ion_count c) 0);
    simpl; split; try done; try lia; intros H; exfalso; apply H; lia.
Qed.

Lemma issues_of_protein c : protein_atoms c < 100 → issue_protein c ∈ issues_of c.
Proof.
  intros H%Nat.ltb_lt. unfold issues_of. rewrite H. set_solver.
Qed.

Lemma issues_of_water c : water_count c < 100 → issue_water c ∈ issues_of c.
Proof.
  intros H%Nat.ltb_lt. unfold issues_of. rewrite H. set_solver.
Qed.

Lemma issues_of_ions c : ion_count c = 0 → issue_ions ∈ issues_of c.
Proof.
  intros H%Nat.eqb_eq. unfold issues_of. rewrite H. set_solver.
Qed.

(** C5. For a system file that exists, [validate_system_preparation]
    returns one result and logs it as one record.  When the file reads as
    text, the result is a failure exactly when a threshold issue is
    present (protein atoms below 100, water atoms below 100, no ions), and
    its message, which starts with "System preparation issues:", then
    contains the text of every issue present: "Low protein atom count: n",
    "Low water count: n - may need more solvation" and "No ions found -
    system may not be neutralized"; with all three present the message is
    the three texts in that order, one per line.  With no ions and a water
    count of 50 the one failed result mentions both. *)
Theorem system_preparation_reports_all_issues fs self system_file :
  FS.exists_ fs (full_path_of self system_file) = true →
  let r := validate_system_preparation fs system_file self in
  (∃ passed msg,
     r.2 = inr (passed, msg)
     ∧ validation_history r.1
       = validation_history self ++ [mkLogEntry "system" passed msg])
  ∧ ∀ content,
      FS.read_text fs (full_path_of self system_file) = inr content →
      let c := count_lines (PyStr.readlines content) in
      (protein_atoms c < 100 ∨ water_count c < 100 ∨ ion_count c = 0 →
         r = (logged "system" false (issues_message c) self,
              inr (false, issues_message c))
         ∧ PyStr.startswith "⚠️ System preparation issues:" (issues_message c) = true
         ∧ (protein_atoms c < 100 →
            occurs_in ("Low protein atom count: " +:+ PyStr.of_nat (protein_atoms c))
              (issues_message c))
         ∧ (water_count c < 100 →
            occurs_in ("Low water count: " +:+ PyStr.of_nat (water_count c)
                         +:+ " - may need more solvation")
              (issues_message c))
         ∧ (ion_count c = 0 →
            occurs_in "No ions found - system may not be neutralized"
              (issues_message c))
         ∧ (protein_atoms c < 100 → water_count c < 100 → ion_count c = 0 →
            issues_message c
            = "⚠️ System preparation issues:" +:+ nl
              +:+ "   Low protein atom count: " +:+ PyStr.of_nat (protein_atoms c)
              +:+ nl
              +:+ "   Low water count: " +:+ PyStr.of_nat (water_count c)
              +:+ " - may need more solvation" +:+ nl
              +:+ "   No ions found - system may not be neutralized"))
      ∧ (¬ (protein_atoms c < 100 ∨ water_count c < 100 ∨ ion_count c = 0) →
         ∃ msg, r.2 = inr (true, msg))
      ∧ (water_count c = 50 → ion_count c = 0 →
         r.2 = inr (false, issues_message c)
         ∧ occurs_in "Low water count: 50 - may need more solvation"
             (issues_message c)
         ∧ occurs_in "No ions found - system may not be neutralized"
             (issues_message c)).
Proof.
  intros Hex r. split.
  { subst r. unfold validate_system_preparation. unfold_m.
    rewrite Hex. simpl.
    destruct (FS.read_text _ _); simpl; [by eexists _, _|].
    destruct (negb _); by eexists _, _. }
  intros content Hread c.
  assert (Hfail : issues_of c ≠ [] →
    r = (logged "system" false (issues_message c) self,
         inr (false, issues_message c))).
  { intros Hne. subst r. unfold validate_system_preparation. unfold_m.
    rewrite Hex. simpl. rewrite Hread. simpl. fold c.
    by rewrite (bool_decide_eq_false_2 _ Hne). }
  assert (Hocc : ∀ x, x ∈ issues_of c → occurs_in x (issues_message c)).
  { intros x Hx. unfold issues_message.
    by apply occurs_in_app_l, occurs_in_app_l, occurs_in_app_l, occurs_in_join. }
  split; [|split].
  - intros Hany. split.
    { apply Hfail. intros Hnil%issues_of_nil. done. }
    split; [done|]. split_and!.
    + intros H. by apply (Hocc (issue_protein c)), issues_of_protein.
    + intros H. by apply (Hocc (issue_water c)), issues_of_water.
    + intros H. by apply (Hocc issue_ions), issues_of_ions.
    + intros Hp%Nat.ltb_lt Hw%Nat.ltb_lt Hi%Nat.eqb_eq.
      unfold issues_message, issues_of. rewrite Hp, Hw, Hi.
      cbn [app PyStr.join]. unfold issue_protein, issue_water, issue_ions.
      by rewrite !append_assoc.
  - intros Hnone%issues_of_nil. subst r.
    unfold validate_system_preparation. unfold_m.
    rewrite Hex. simpl. rewrite Hread. simpl. fold c. rewrite Hnone. simpl.
    eexists; reflexivity.
  - intros Hw Hi. split; [|split].
    + rewrite Hfail; [done|]. intros Hnil%issues_of_nil. apply Hnil. lia.
    + assert (Heq : issue_water c = "Low water count: 50 - may need more solvation").
      { unfold issue_water. rewrite Hw. by vm_compute. }
      rewrite <- Heq. apply Hocc, issues_of_water. lia.
    + apply (Hocc issue_ions), issues_of_ions, Hi.
Qed.

(** ** Force-field coverage gaps *)

Section Coverage.

Context (repr_set : gset string → string).

(** The structure check leaves the force-field fields alone. *)
Lemma check_structure_stage_forcefield fs self :
  forcefield_validated (check_structure_stage repr_set fs self).1
    = forcefield_validated self.
Proof.
  unfold check_structure_stage. unfold bind at 1. unfold get_self.
  destruct (_ && _).
  - unfold_m. by destruct (FS.exists_ _ _).
  - unfold auto_discover. unfold bind at 1.
    pose proof (find_pdb_files_state fs self) as Hst.
    destruct (_find_pdb_files fs self) as [s' [e|[|first rest]]];
      simpl in Hst; subst s'; try done.
    unfold bind.
    destruct (validate_structure_cases repr_set fs first self)
      as (m & [->|[_ ->]]); done.
Qed.

(** While the force field is not validated the gate does not pass,
    whatever is on disk. *)
Lemma gate_blocks_without_forcefield fs self m :
  forcefield_validated self = false →
  (check_workflow_status repr_set fs self).2 ≠ inr (true, m).
Proof.
  intros Hff. unfold check_workflow_status. unfold bind at 1.
  pose proof (check_structure_stage_forcefield fs self) as Hpres.
  destruct (check_structure_stage repr_set fs self) as [s' [e|line]];
    simpl in Hpres; [done|].
  unfold check_forcefield_stage. unfold_m. rewrite Hpres, Hff. simpl.
  rewrite andb_false_r. done.
Qed.

End Coverage.

(** ** Structure validation: the backbone check *)













Lemma contains_sep_false c s :
  PyStr.contains (String c "") s = false ↔ ∀ i a, String.get i s = Some a → a ≠ c.
Proof.
  induction s as [|b s IH].
  - split; [|done]. intros _ i a. by destruct i.
  - cbn [PyStr.contains String.prefix].
    destruct (ascii_dec c b) as [->|Hne].
    + split; [|intros H; by specialize (H 0 b eq_refl)].
      destruct s; done.
    + cbn [orb]. rewrite IH. split.
      * intros H [|i] a; cbn [String.get]; [by intros [= <-]|apply H].
      * intros H i a Hi. by apply (H (S i)).
Qed.

(** Splitting at the first separator. *)
Lemma split_app_first sep a b :
  PyStr.contains (String sep "") a = false →
  PyStr.split sep (a +:+ String sep b) = a :: PyStr.split sep b.
Proof.
  induction a as [|c a IH]; intros Hno.
  - change ("" +:+ String sep b) with (String sep b).
    cbn [PyStr.split]. by rewrite Ascii.eqb_refl.
  - rewrite append_cons. cbn [PyStr.split].
    assert (Hc : c ≠ sep).
    { eapply contains_sep_false in Hno; [exact Hno|]. by instantiate (1 := 0). }
    assert (Ha : PyStr.contains (String sep "") a = false).
    { apply contains_sep_false. intros i x Hx.
      eapply contains_sep_false in Hno; [exact Hno|]. by instantiate (1 := S i). }
    destruct (Ascii.eqb_spec c sep) as [|_]; [done|].
    by rewrite (IH Ha).
Qed.

Lemma split_no_sep sep a :
  PyStr.contains (String sep "") a = false → PyStr.split sep a = [a].
Proof.
  induction a as [|c a IH]; intros Hno; [done|].
  cbn [PyStr.split].
  assert (Hc : c ≠ sep).
  { eapply contains_sep_false in Hno; [exact Hno|]. by instantiate (1 := 0). }
  assert (Ha : PyStr.contains (String sep "") a = false).
  { apply contains_sep_false. intros i x Hx.
    eapply contains_sep_false in Hno; [exact Hno|]. by instantiate (1 := S i). }
  destruct (Ascii.eqb_spec c sep) as [|_]; [done|]. by rewrite (IH Ha).
Qed.





Section Backbone.

Context (repr_set : gset string → string).




End Backbone.

(** ** The validation table and what can raise *)

Section Raising.

Context (repr_set : gset string → string).

Lemma validate_structure_returns fs pdb_file self :
  ∃ r, (validate_structure repr_set fs pdb_file self).2 = inr r.
Proof.
  destruct (validate_structure_cases repr_set fs pdb_file self)
    as (m & [->|[_ ->]]); by eexists.
Qed.

Lemma validate_forcefield_coverage_returns fs pdb_file forcefield self :
  ∃ r, (validate_forcefield_coverage repr_set fs pdb_file forcefield self).2 = inr r.
Proof.
  unfold validate_forcefield_coverage. unfold_m.
  destruct (FS.exists_ _ _); simpl; [|by eexists].
  destruct (known_ff _); simpl; [|by eexists].
  destruct (FS.read_text _ _); simpl; [by eexists|].
  destruct (_ && _); by eexists.
Qed.

Lemma validate_system_preparation_returns fs system_file self :
  ∃ r, (validate_system_preparation fs system_file self).2 = inr r.
Proof.
  unfold validate_system_preparation. unfold_m.
  destruct (FS.exists_ _ _); simpl; [|by eexists].
  destruct (FS.read_text _ _); simpl; [by eexists|].
  destruct (negb _); by eexists.
Qed.

Lemma check_system_ready_returns fs self :
  ∃ r, (check_system_ready fs self).2 = inr r.
Proof.
  unfold check_system_ready. unfold_m.
  destruct (_ && _); [|by eexists]. simpl.
  destruct (FS.exists_ _ _); by eexists.
Qed.

(** An unregistered name raises [ValueError] and changes nothing. *)
Lemma validate_unregistered fs name args self :
  validation_methods self !! name = None →
  validate repr_set fs name args self
    = (self, inl (ValueError ("Validation method '" +:+ name
                                +:+ "' is not registered."))).
Proof. intros H. unfold validate. unfold_m. by rewrite H. Qed.


End Raising.

(** ** Force-field coverage gaps and the gate *)

Section CoverageGap.

Context (repr_set : gset string → string).



End CoverageGap.



(** ** Worked examples *)

Example validate_structure_pdb_ok :
  (validate_structure repr_set_elements fs_ok "a.pdb" (init "/w")).2
  = inr (true,
         "✅ Structure validated: a.pdb" +:+ nl
         +:+ "   📊 12 atoms, 1 residues, 1 chain(s)" +:+ nl
         +:+ "   🧬 1 amino acid residues").
Proof. by vm_compute. Qed.

Example gate_on_empty_disk :
  (check_workflow_status repr_set_elements ∅ (init "/w")).2
  = inr (false,
         "❌ WORKFLOW HALTED - Prerequisites not met:" +:+ nl
         +:+ "   ❌ No structure file found" +:+ nl
         +:+ "   ❌ Force field not validated").
Proof. by vm_compute. Qed.

(** A structure with its backbone is discovered and validated by the
    gate; the force field still blocks. *)
Example gate_auto_detects_structure :
  check_workflow_status repr_set_elements fs_ok (init "/w")
  = (logged "workflow" false
       (final_message false
          ["✅ Structure: a.pdb (auto-detected)"; "❌ Force field not validated"])
       ((validate_structure repr_set_elements fs_ok "/w/a.pdb" (init "/w")).1),
     inr (false,
          final_message false
            ["✅ Structure: a.pdb (auto-detected)"; "❌ Force field not validated"])).
Proof. by vm_compute. Qed.

(** Structure and force field validated: the gate passes. *)
Example gate_ready :
  let s1 := (validate_structure repr_set_elements fs_ok "a.pdb" (init "/w")).1 in
  let s2 := (validate_forcefield_coverage repr_set_elements fs_ok
               "a.pdb" "amber14-all.xml" s1).1 in
  (check_workflow_status repr_set_elements fs_ok s2).2
  = inr (true,
         "✅ WORKFLOW READY - All prerequisites met:" +:+ nl
         +:+ "   ✅ Structure: a.pdb" +:+ nl
         +:+ "   ✅ Force field: amber14-all.xml").
Proof. by vm_compute. Qed.

(** A force-field name outside the list and the two name patterns. *)
Example unknown_forcefield_is_refused :
  (validate_forcefield_coverage repr_set_elements fs_ok "a.pdb" "opls" (init "/w")).2
  = inr (false,
         "⚠️ Force field 'opls' may not be available. Known: "
         +:+ repr_available_forcefields).
Proof. by vm_compute. Qed.

(** *** C1 *)

Lemma demotion_invariant_witness :
  let self :=
    (validate_system_preparation fs_full "system.pdb"
       (validate_structure repr_set_elements fs_full "old.pdb" (init "/w")).1).1 in
  structure_validated self = true
  ∧ validated_structure_file self = Some "/w/old.pdb"
  ∧ system_prepared self = true
  ∧ validated_system_file self = Some "/w/system.pdb"
  ∧ (∃ msg,
       let r := check_workflow_status repr_set_elements fs_ok self in
       structure_validated r.1 = false
       ∧ validated_structure_file r.1 = None
       ∧ r.2 = inr (false, msg)
       ∧ occurs_in "❌ Structure file missing" msg
       ∧ last (validation_history r.1) = Some (mkLogEntry "workflow" false msg))
  ∧ (let r := check_system_ready fs_ok self in
     system_prepared r.1 = false
     ∧ validated_system_file r.1 = None
     ∧ r.2 = inr (false, "❌ Prepared system file no longer exists")).
Proof.
  intros self.
  assert (Hv : structure_validated self = true) by (by vm_compute).
  assert (Hf : validated_structure_file self = Some "/w/old.pdb") by (by vm_compute).
  assert (Hs : system_prepared self = true) by (by vm_compute).
  assert (Hg : validated_system_file self = Some "/w/system.pdb") by (by vm_compute).
  split; [exact Hv|]. split; [exact Hf|]. split; [exact Hs|]. split; [exact Hg|].
  split.
  - apply (demotion_invariant repr_set_elements fs_ok self "/w/old.pdb");
      [done|by vm_compute|exact Hv|exact Hf].
  - apply (demotion_invariant repr_set_elements fs_ok self "/w/system.pdb");
      [done|by vm_compute|exact Hs|exact Hg].
Defined.

(** *** C3 *)

(** C3 as stated fails: [old.pdb] was validated and has since been
    deleted, the working directory still holds [a.pdb], which the validator
    accepts, and yet the call leaves the stage unvalidated and adds one
    record to the history, the gate's own: no "structure" record, so the
    validator did not run. *)
Lemma demotion_does_not_fall_through :
  let self := (validate_structure repr_set_elements fs_full "old.pdb" (init "/w")).1 in
  let r := check_workflow_status repr_set_elements fs_ok self in
  structure_validated self = true
  ∧ validated_structure_file self = Some "/w/old.pdb"
  ∧ FS.exists_ fs_ok "/w/old.pdb" = false
  ∧ (_find_pdb_files fs_ok r.1).2 = inr ["/w/a.pdb"]
  ∧ (∃ m, (validate_structure repr_set_elements fs_ok "/w/a.pdb" r.1).2
          = inr (true, m))
  ∧ structure_validated r.1 = false
  ∧ validated_structure_file r.1 = None
  ∧ validation_history r.1
    = validation_history self
      ++ [mkLogEntry "workflow" false
            (final_message false
               ["❌ Structure file missing"; "❌ Force field not validated"])].
Proof.
  cbn zeta. split_and!.
  - by vm_compute.
  - by vm_compute.
  - by vm_compute.
  - by vm_compute.
  - eexists. by vm_compute.
  - by vm_compute.
  - by vm_compute.
  - by vm_compute.
Qed.

Lemma demotion_defers_discovery_witness :
  let self := (validate_structure repr_set_elements fs_full "old.pdb" (init "/w")).1 in
  ∃ msg,
    check_workflow_status repr_set_elements fs_ok self
      = (logged "workflow" false msg (structure_demoted self), inr (false, msg))
    ∧ occurs_in "❌ Structure file missing" msg
    ∧ ∀ fs',
        check_structure_stage repr_set_elements fs'
          (logged "workflow" false msg (structure_demoted self))
        = auto_discover repr_set_elements fs'
            (logged "workflow" false msg (structure_demoted self)).
Proof.
  intros self.
  apply (demotion_defers_discovery repr_set_elements fs_ok self "/w/old.pdb");
    [by vm_compute|by vm_compute|done|by vm_compute].
Defined.

(** *** C2 *)



(** *** C4 *)



(** What the amended claim leaves out: an alanine on the chain named
    [_] is not counted as an amino-acid residue, so its missing backbone
    goes unreported. *)
Example alanine_on_underscore_chain_validates :
  (validate_structure repr_set_elements fs_underscore_chain "a.pdb" (init "/w")).2
  = inr (true,
         "✅ Structure validated: a.pdb" +:+ nl
         +:+ "   📊 10 atoms, 1 residues, 1 chain(s)" +:+ nl
         +:+ "   🧬 0 amino acid residues").
Proof. by vm_compute. Qed.

(** *** C5 *)

Lemma system_preparation_reports_all_issues_witness :
  let self := init "/w" in
  let c := count_lines (PyStr.readlines system_three_issues) in
  let r := validate_system_preparation fs_three_issues "system.pdb" self in
  let msg := "⚠️ System preparation issues:" +:+ nl
             +:+ "   Low protein atom count: 3" +:+ nl
             +:+ "   Low water count: 50 - may need more solvation" +:+ nl
             +:+ "   No ions found - system may not be neutralized" in
  protein_atoms c = 3
  ∧ water_count c = 50
  ∧ ion_count c = 0
  ∧ r.2 = inr (false, msg)
  ∧ validation_history r.1 = [mkLogEntry "system" false msg]
  ∧ occurs_in "Low protein atom count: 3" msg
  ∧ occurs_in "Low water count: 50 - may need more solvation" msg
  ∧ occurs_in "No ions found - system may not be neutralized" msg.
Proof.
  intros self c r msg.
  assert (Hp : protein_atoms c = 3) by (by vm_compute).
  assert (Hw : water_count c = 50) by (by vm_compute).
  assert (Hi : ion_count c = 0) by (by vm_compute).
  split; [exact Hp|]. split; [exact Hw|]. split; [exact Hi|].
  destruct (system_preparation_reports_all_issues fs_three_issues self "system.pdb")
    as (_ & H); [by vm_compute|].
  destruct (H system_three_issues) as (Hany & _ & _); [by vm_compute|].
  fold c in Hany.
  destruct Hany as (Heq & _ & Ho1 & Ho2 & Ho3 & Hall); [left; lia|].
  assert (Hmsg : issues_message c = msg).
  { rewrite Hall by lia. rewrite Hp, Hw. by vm_compute. }
  fold r in Heq. rewrite Heq, Hmsg. cbn [fst snd].
  split; [done|]. split; [done|].
  rewrite <- Hmsg. split_and!.
  - specialize (Ho1 ltac:(lia)). by rewrite Hp in Ho1.
  - specialize (Ho2 ltac:(lia)). by rewrite Hw in Ho2.
  - by apply Ho3.
Defined.

(** The case the claim names: 100 protein atoms, 50 water atoms, no
    ions; one failed result that lists both issues. *)
Example low_water_and_no_ions :
  (validate_system_preparation fs_system "system.pdb" (init "/w")).2
  = inr (false,
         "⚠️ System preparation issues:" +:+ nl
         +:+ "   Low water count: 50 - may need more solvation" +:+ nl
         +:+ "   No ions found - system may not be neutralized").
Proof. by vm_compute. Qed.

(** *** C6 *)

(** C6. The claim is that with one [.pdb] candidate in the working
    directory that [validate_structure] accepts, the gate promotes the
    stage with the candidate as stored reference.  With the relative
    working directory [w] that holds the valid file [w/a.pdb],
    [_find_pdb_files] lists the candidate as [w/a.pdb], and
    [validate_structure], given that path, joins the working directory to
    it once more and looks for [w/w/a.pdb]: the gate reports the file it
    has just listed as not found and promotes nothing, although
    [validate_structure] accepts the same file by its name. *)
Theorem gate_rejects_candidate_of_relative_workdir :
  let self := init "w" in
  let r := check_workflow_status repr_set_elements fs_relative_plain self in
  structure_validated self = false
  ∧ _find_pdb_files fs_relative_plain self = (self, inr ["w/a.pdb"])
  ∧ FS.read_text fs_relative_plain "w/a.pdb" = inr pdb_ok
  ∧ (∃ m, (validate_structure repr_set_elements fs_relative_plain "a.pdb" self).2
          = inr (true, m))
  ∧ full_path_of self "w/a.pdb" = "w/w/a.pdb"
  ∧ (validate_structure repr_set_elements fs_relative_plain "w/a.pdb" self).2
    = inr (false, "❌ Structure file not found: w/a.pdb")
  ∧ r.2 = inr (false,
               final_message false
                 ["❌ Structure: ❌ Structure file not found: w/a.pdb";
                  "❌ Force field not validated"])
  ∧ structure_validated r.1 = false
  ∧ validated_structure_file r.1 = None.
Proof. cbn zeta. split_and!; try (by vm_compute). eexists. by vm_compute. Qed.

(** The same double join when a file [w/w/a.pdb] happens to exist: the
    gate validates and stores that other file, and once it is removed the
    next call reports the structure missing although the candidate
    [w/a.pdb] is still in place. *)
Lemma relative_workdir_stores_other_path :
  let self := init "w" in
  let s1 := (check_workflow_status repr_set_elements fs_relative self).1 in
  let fs2 := delete "w/w/a.pdb" fs_relative in
  let r2 := check_workflow_status repr_set_elements fs2 s1 in
  structure_validated self = false
  ∧ _find_pdb_files fs_relative self = (self, inr ["w/a.pdb"])
  ∧ (∃ m, (validate_structure repr_set_elements fs_relative "w/a.pdb" self).2
          = inr (true, m))
  ∧ structure_validated s1 = true
  ∧ validated_structure_file s1 = Some "w/w/a.pdb"
  ∧ validated_structure_file s1 ≠ Some "w/a.pdb"
  ∧ FS.exists_ fs2 "w/a.pdb" = true
  ∧ r2.2 = inr (false,
                final_message false
                  ["❌ Structure file missing"; "❌ Force field not validated"])
  ∧ structure_validated r2.1 = false.
Proof.
  cbn zeta. split_and!.
  - by vm_compute.
  - by vm_compute.
  - eexists. by vm_compute.
  - by vm_compute.
  - by vm_compute.
  - by vm_compute.
  - by vm_compute.
  - by vm_compute.
  - by vm_compute.
Qed.

Lemma auto_discovery_monotone_witness :
  let self := init "/w" in
  let s1 := (check_workflow_status repr_set_elements fs_ok self).1 in
  structure_validated s1 = true
  ∧ validated_structure_file s1 = Some "/w/a.pdb"
  ∧ ∀ fs2, FS.exists_ fs2 "/w/a.pdb" = true →
      ∃ ok msg2,
        check_workflow_status repr_set_elements fs2 s1
          = (logged "workflow" ok msg2 s1, inr (ok, msg2))
        ∧ occurs_in ("✅ Structure: " +:+ OsPath.basename "/w/a.pdb" +:+ nl) msg2.
Proof.
  intros self.
  eapply (auto_discovery_monotone repr_set_elements fs_ok self "/w/a.pdb").
  - by vm_compute.
  - by vm_compute.
  - by vm_compute.
  - by vm_compute.
Defined.

(** *** C7 *)

Lemma flag_reference_coupling_witness :
  let self := run_op repr_set_elements fs_ok OpCheckWorkflowStatus (init "/w") in
  reachable repr_set_elements self
  ∧ structure_validated self = true
  ∧ validated_structure_file self ≠ None
  ∧ validated_structure_file
      (run_op repr_set_elements ∅ OpCheckWorkflowStatus self) = None.
Proof.
  intros self.
  assert (Hr : reachable repr_set_elements self).
  { apply reachable_step, reachable_init. }
  assert (Hv : structure_validated self = true) by (by vm_compute).
  destruct (flag_reference_coupling repr_set_elements self Hr) as [H1 H2].
  split; [exact Hr|]. split; [exact Hv|]. split; [exact (H1 Hv)|].
  apply H2; [exact Hv|]. by vm_compute.
Defined.

(** *** C8 *)

(** C8. The claim is that [validate] raises for unregistered names only
    and that the gate returns a result on every disk.  On a disk where the
    working directory path names a regular file, the registered name
    [workflow_status] makes [validate] raise: [_find_pdb_files] passes the
    [os.path.exists] test and [os.listdir] raises outside any handler. *)
Theorem gate_raises_on_unlistable_workdir :
  let self := init "/w" in
  validation_methods self !! "workflow_status" = Some CheckWorkflowStatus
  ∧ structure_validated self = false
  ∧ FS.exists_ fs_workdir_is_file "/w" = true
  ∧ check_workflow_status repr_set_elements fs_workdir_is_file self
    = (self, inl (OSError "[Errno 20] Not a directory: '/w'"))
  ∧ validate repr_set_elements fs_workdir_is_file "workflow_status" [] self
    = (self, inl (OSError "[Errno 20] Not a directory: '/w'")).
Proof. cbn zeta. split_and!; by vm_compute. Qed.

(** *** C10 *)

Lemma mark_forcefield_validated_unconditional_witness :
  let self := init "/w" in
  let r := mark_forcefield_validated "no-such-ff" "missing.pdb" self in
  FS.exists_ ∅ (full_path_of self "missing.pdb") = false
  ∧ known_ff (normalize_ff_name "no-such-ff") = false
  ∧ forcefield_validated r.1 = true
  ∧ validated_forcefield r.1 = Some "no-such-ff"
  ∧ r.2 = inr ("✅ Force field marked as validated: " +:+ "no-such-ff")
  ∧ mark_structure_validated ∅ "missing.pdb" self
    = (self, inr ("❌ Cannot mark as validated - file not found: " +:+ "missing.pdb")).
Proof.
  intros self r.
  destruct (mark_forcefield_validated_unconditional "no-such-ff" "missing.pdb" self)
    as (H1 & H2 & H3 & H4).
  split; [reflexivity|]. split; [by vm_compute|].
  split; [exact H1|]. split; [exact H2|]. split; [exact H3|].
  apply H4. reflexivity.
Defined.

(** ** Export of the workflow state *)


(** * Further properties *)

(** ** The history and what the validators log *)

Section History.

Context (repr_set : gset string → string).

(** X4. Each of the three validators returns a result on every disk and
    for every argument, never an exception, and logs exactly one record
    of its own type that carries the flag and the message it returns. *)
Theorem validators_log_their_result fs self file forcefield :
  (∃ passed msg,
     (validate_structure repr_set fs file self).2 = inr (passed, msg)
     ∧ validation_history (validate_structure repr_set fs file self).1
       = validation_history self ++ [mkLogEntry "structure" passed msg])
  ∧ (∃ passed msg,
       (validate_forcefield_coverage repr_set fs file forcefield self).2
         = inr (passed, msg)
       ∧ validation_history
           (validate_forcefield_coverage repr_set fs file forcefield self).1
         = validation_history self ++ [mkLogEntry "forcefield" passed msg])
  ∧ (∃ passed msg,
       (validate_system_preparation fs file self).2 = inr (passed, msg)
       ∧ validation_history (validate_system_preparation fs file self).1
         = validation_history self ++ [mkLogEntry "system" passed msg]).
Proof.
  split; [|split].
  - destruct (validate_structure_cases repr_set fs file self)
      as (m & [->|[_ ->]]); by eexists _, _.
  - unfold validate_forcefield_coverage. unfold_m.
    destruct (FS.exists_ _ _); simpl; [|by eexists _, _].
    destruct (known_ff _); simpl; [|by eexists _, _].
    destruct (FS.read_text _ _); simpl; [by eexists _, _|].
    destruct (_ && _); by eexists _, _.
  - unfold validate_system_preparation. unfold_m.
    destruct (FS.exists_ _ _); simpl; [|by eexists _, _].
    destruct (FS.read_text _ _); simpl; [by eexists _, _|].
    destruct (negb _); by eexists _, _.
Qed.

Lemma extends_refl s : extends s s.
Proof. split; [done|]. exists []. by rewrite app_nil_r; split; [|simpl; lia]. Qed.

Lemma extends_logged t b m s : extends s (logged t b m s).
Proof. split; [done|]. eexists. split; [reflexivity|simpl; lia]. Qed.

Lemma extends_validate_structure fs f s :
  extends s (validate_structure repr_set fs f s).1.
Proof.
  destruct (validate_structure_cases repr_set fs f s) as (m & [->|[_ ->]]);
    (split; [done|]); eexists; (split; [reflexivity|simpl; lia]).
Qed.

Lemma extends_validate_forcefield_coverage fs f ff s :
  extends s (validate_forcefield_coverage repr_set fs f ff s).1.
Proof.
  unfold validate_forcefield_coverage. unfold_m.
  destruct (FS.exists_ _ _); simpl; [|apply extends_logged].
  destruct (known_ff _); simpl; [|apply extends_logged].
  destruct (FS.read_text _ _); simpl; [apply extends_logged|].
  destruct (_ && _); [apply extends_logged|].
  split; [done|]. eexists. split; [reflexivity|simpl; lia].
Qed.

Lemma extends_validate_system_preparation fs f s :
  extends s (validate_system_preparation fs f s).1.
Proof.
  unfold validate_system_preparation. unfold_m.
  destruct (FS.exists_ _ _); simpl; [|apply extends_logged].
  destruct (FS.read_text _ _); simpl; [apply extends_logged|].
  destruct (negb _); [apply extends_logged|].
  split; [done|]. eexists. split; [reflexivity|simpl; lia].
Qed.

Lemma extends_check_system_ready fs s : extends s (check_system_ready fs s).1.
Proof.
  unfold check_system_ready. unfold_m.
  destruct (_ && _); [|apply extends_refl]. simpl.
  destruct (FS.exists_ _ _); [apply extends_refl|].
  split; [done|]. exists []. simpl. rewrite app_nil_r. split; [done|lia].
Qed.

Lemma extends_check_workflow_status fs s :
  extends s (check_workflow_status repr_set fs s).1.
Proof.
  assert (Hstage : ∃ new,
    workdir (check_structure_stage repr_set fs s).1 = workdir s
    ∧ validation_history (check_structure_stage repr_set fs s).1
      = validation_history s ++ new
    ∧ length new ≤ 1).
  { unfold check_structure_stage. unfold bind, get_self.
    destruct (_ && _).
    - unfold_m. destruct (FS.exists_ fs (default "" _)); exists []; simpl;
        rewrite app_nil_r; (split; [done|split; [done|lia]]).
    - unfold auto_discover. unfold bind.
      pose proof (find_pdb_files_state fs s) as Hst.
      destruct (_find_pdb_files fs s) as [s' [e|[|first rest]]];
        simpl in Hst; subst s'.
      + exists []. simpl. rewrite app_nil_r. split; [done|split; [done|lia]].
      + exists []. simpl. rewrite app_nil_r. split; [done|split; [done|lia]].
      + destruct (validate_structure_cases repr_set fs first s)
          as (m & [->|[_ ->]]); simpl; eexists;
          (split; [done|split; [reflexivity|simpl; lia]]). }
  destruct Hstage as (new & Hw & Hh & Hlen).
  unfold check_workflow_status. unfold bind at 1.
  destruct (check_structure_stage repr_set fs s) as [s' [e|line]]; simpl in *.
  { split; [done|]. exists new. split; [done|lia]. }
  unfold bind at 1. destruct (check_forcefield_stage_pure s') as (ffline & ->).
  unfold_m. simpl. split; [done|].
  exists (new ++ [mkLogEntry "workflow" (line.2 && ffline.2)
                    (final_message (line.2 && ffline.2) [line.1; ffline.1])]).
  rewrite Hh, <- app_assoc. split; [done|]. rewrite length_app. simpl. lia.
Qed.

(** X1. The history is append-only and the working directory is fixed:
    every operation of the class, [reset_validation_state] and calls that
    raise included, returns with the former history as a prefix of the
    new one, extended by at most two records, and with the same
    [workdir]. *)
Theorem history_append_only fs op self :
  workdir (run_op repr_set fs op self) = workdir self
  ∧ ∃ new,
      validation_history (run_op repr_set fs op self)
        = validation_history self ++ new
      ∧ length new ≤ 2.
Proof.
  change (extends self (run_op repr_set fs op self)).
  destruct op; simpl.
  - apply extends_validate_structure.
  - unfold check_structure_status. unfold_m.
    destruct (_ && _); [|apply extends_refl]. simpl.
    destruct (FS.exists_ _ _); [apply extends_refl|].
    split; [done|]. exists []. simpl. rewrite app_nil_r. split; [done|lia].
  - unfold mark_structure_validated. unfold_m.
    destruct (FS.exists_ _ _); simpl; [|apply extends_refl].
    split; [done|]. eexists. split; [reflexivity|simpl; lia].
  - apply extends_validate_forcefield_coverage.
  - unfold check_forcefield_status. unfold_m. destruct (_ && _); apply extends_refl.
  - split; [done|]. eexists. split; [reflexivity|simpl; lia].
  - apply extends_validate_system_preparation.
  - apply extends_check_system_ready.
  - apply extends_check_workflow_status.
  - split; [done|]. exists []. simpl. rewrite app_nil_r. split; [done|lia].
  - split; [done|]. exists []. simpl. rewrite app_nil_r. split; [done|lia].
  - unfold validate. unfold bind, get_self.
    destruct (validation_methods self !! name) as [m|]; [|apply extends_refl].
    destruct m, args as [|a [|b [|c args]]]; simpl; try apply extends_refl.
    + apply extends_validate_structure.
    + apply extends_validate_forcefield_coverage.
    + apply extends_validate_forcefield_coverage.
    + apply extends_check_workflow_status.
    + apply extends_check_system_ready.
Qed.

End History.

(** ** What a passing gate guarantees *)

Lemma truthy_Some_inv o : PyStr.truthy o = true → ∃ p, o = Some p ∧ p ≠ "".
Proof. destruct o as [[|c p]|]; try done. intros _. by eexists. Qed.

Section GateSoundness.

Context (repr_set : gset string → string).

(** The structure check that reports success leaves a set flag and a
    stored file that is on disk, and does not touch the force field. *)
Lemma check_structure_stage_sound fs s s' text :
  check_structure_stage repr_set fs s = (s', inr (text, true)) →
  structure_validated s' = true
  ∧ (∃ p, validated_structure_file s' = Some p ∧ FS.exists_ fs p = true)
  ∧ forcefield_validated s' = forcefield_validated s
  ∧ validated_forcefield s' = validated_forcefield s.
Proof.
  unfold check_structure_stage. unfold bind, get_self.
  destruct (structure_validated s && PyStr.truthy (validated_structure_file s))
    eqn:Hc.
  - apply andb_true_iff in Hc as [Hv (p & Hp & _)%truthy_Some_inv].
    unfold_m. rewrite Hp. simpl.
    destruct (FS.exists_ fs p) eqn:Hex; [|by intros [=]].
    intros [= <- _]. split; [done|]. split; [by exists p|done].
  - unfold auto_discover. unfold bind.
    pose proof (find_pdb_files_state fs s) as Hst.
    destruct (_find_pdb_files fs s) as [s0 [e|[|first rest]]];
      simpl in Hst; subst s0; try done.
    destruct (validate_structure_cases repr_set fs first s)
      as (m & [->|[Hex ->]]); simpl; [done|].
    intros [= <- _]. split; [done|]. split; [by eexists|done].
Qed.

(** X2. A passing gate is sound for the state it leaves: when
    [check_workflow_status] answers [True], the structure flag is set, the
    stored structure file exists on the disk the call saw, the force-field
    flag is set with a non-empty name, and the last history record is the
    passing "workflow" record with the returned report. *)
Theorem gate_pass_sound fs self s' msg :
  check_workflow_status repr_set fs self = (s', inr (true, msg)) →
  structure_validated s' = true
  ∧ (∃ p, validated_structure_file s' = Some p ∧ FS.exists_ fs p = true)
  ∧ forcefield_validated s' = true
  ∧ (∃ name, validated_forcefield s' = Some name ∧ name ≠ "")
  ∧ last (validation_history s') = Some (mkLogEntry "workflow" true msg).
Proof.
  unfold check_workflow_status. unfold bind at 1.
  destruct (check_structure_stage repr_set fs self) as [s1 [e|[text ok]]] eqn:Hs;
    [done|].
  unfold check_forcefield_stage. unfold_m. simpl.
  destruct (forcefield_validated s1 && PyStr.truthy (validated_forcefield s1))
    eqn:Hff; simpl.
  2: { rewrite andb_false_r. done. }
  rewrite andb_true_r. destruct ok; [|done].
  intros [= <- <-].
  destruct (check_structure_stage_sound fs self s1 _ Hs) as (Hv & Hp & _ & _).
  apply andb_true_iff in Hff as [Hf Hn%truthy_Some_inv].
  simpl. split; [done|]. split; [done|]. split; [done|]. split; [done|].
  by rewrite last_snoc.
Qed.

(** X3. [reset_validation_state] clears the three flags and the three
    references and keeps the history and the table of methods; after it
    the gate does not pass on any disk, even one with a valid structure
    to discover, until a force field is validated again. *)
Theorem reset_blocks_gate fs self m :
  let s := (reset_validation_state self).1 in
  structure_validated s = false
  ∧ forcefield_validated s = false
  ∧ system_prepared s = false
  ∧ validated_structure_file s = None
  ∧ validated_forcefield s = None
  ∧ validated_system_file s = None
  ∧ validation_history s = validation_history self
  ∧ validation_methods s = validation_methods self
  ∧ (check_workflow_status repr_set fs s).2 ≠ inr (true, m).
Proof.
  cbn zeta. split_and!; try done.
  by apply gate_blocks_without_forcefield.
Qed.

(** X5. Two manual marks open the gate without any validation: once
    [mark_structure_validated] has found its file and
    [mark_forcefield_validated] has been given a non-empty name, the gate
    passes on every disk that still holds the file, whatever the file
    contains and whatever the name is. *)
Theorem manual_marks_open_gate fs fs' self pdb_file forcefield :
  FS.exists_ fs (full_path_of self pdb_file) = true →
  FS.exists_ fs' (full_path_of self pdb_file) = true →
  forcefield ≠ "" →
  let s1 := (mark_structure_validated fs pdb_file self).1 in
  let s2 := (mark_forcefield_validated forcefield pdb_file s1).1 in
  ∃ msg, (check_workflow_status repr_set fs' s2).2 = inr (true, msg).
Proof.
  intros Hex Hex' Hff. cbn zeta.
  assert (Hs1 : ∃ m1, mark_structure_validated fs pdb_file self
    = (logged "structure" true m1
         (structure_promoted (full_path_of self pdb_file) self),
       inr ("✅ Structure marked as validated: " +:+ pdb_file))).
  { unfold mark_structure_validated. unfold_m. rewrite Hex. by eexists. }
  destruct Hs1 as (m1 & ->). cbn [fst].
  set (s2 := (mark_forcefield_validated forcefield pdb_file _).1).
  unfold check_workflow_status. unfold bind at 1.
  rewrite (check_structure_stage_present repr_set fs' s2
             (full_path_of self pdb_file)) by done.
  unfold bind at 1. unfold check_forcefield_stage. unfold bind at 1.
  unfold get_self.
  change (forcefield_validated s2) with true.
  change (validated_forcefield s2) with (Some forcefield).
  rewrite (truthy_Some_ne _ Hff). unfold_m. simpl. by eexists.
Qed.

(** X6. An empty force-field name never validates: the manual mark
    sets the flag, but [check_forcefield_status] and the gate test the
    stored name for truth as well, so the status stays "no force field"
    and the gate does not pass on any disk. *)
Theorem empty_forcefield_name_never_validates fs self pdb_file m :
  let s := (mark_forcefield_validated "" pdb_file self).1 in
  forcefield_validated s = true
  ∧ (check_forcefield_status s).2 = inr "❌ No force field has been validated"
  ∧ (check_workflow_status repr_set fs s).2 ≠ inr (true, m).
Proof.
  cbn zeta. split; [done|]. split; [done|].
  unfold check_workflow_status. unfold bind at 1.
  set (s := (mark_forcefield_validated "" pdb_file self).1).
  pose proof (check_structure_stage_forcefield repr_set fs s) as Hpres.
  assert (Hname : validated_forcefield (check_structure_stage repr_set fs s).1
                  = Some "").
  { unfold check_structure_stage. unfold bind, get_self.
    destruct (_ && _).
    - unfold_m. by destruct (FS.exists_ fs (default "" _)).
    - unfold auto_discover. unfold bind.
      pose proof (find_pdb_files_state fs s) as Hst.
      destruct (_find_pdb_files fs s) as [s0 [e|[|first rest]]];
        simpl in Hst; subst s0; try done.
      destruct (validate_structure_cases repr_set fs first s)
        as (msg & [->|[_ ->]]); done. }
  destruct (check_structure_stage repr_set fs s) as [s1 [e|line]];
    simpl in Hpres, Hname; [done|].
  unfold check_forcefield_stage. unfold_m. rewrite Hname. simpl.
  rewrite !andb_false_r. done.
Qed.

End GateSoundness.

(** ** When the validators pass *)

Lemma subseteq_difference_empty (X Y : gset string) : X ∖ Y = ∅ ↔ X ⊆ Y.
Proof.
  split.
  - intros H x Hx. destruct (decide (x ∈ Y)) as [|Hn]; [done|].
    assert (Hin : x ∈ X ∖ Y) by (by apply elem_of_difference).
    rewrite H in Hin. by apply not_elem_of_empty in Hin.
  - intros H. apply leibniz_equiv. intros x. split.
    + intros [Hx Hn]%elem_of_difference. exfalso. by apply Hn, H.
    + by intros ?%not_elem_of_empty.
Qed.

Lemma subseteq_difference_empty' (X A B C : gset string) :
  X ∖ A ∖ B ∖ C = ∅ ↔ X ⊆ A ∪ B ∪ C.
Proof.
  rewrite subseteq_difference_empty. split.
  - intros H x Hx.
    destruct (decide (x ∈ A)) as [|Ha]; [by apply elem_of_union_l, elem_of_union_l|].
    destruct (decide (x ∈ B)) as [|Hb]; [by apply elem_of_union_l, elem_of_union_r|].
    apply elem_of_union_r, H.
    apply elem_of_difference. split; [|done].
    by apply elem_of_difference.
  - intros H x [[Hx Ha]%elem_of_difference Hb]%elem_of_difference.
    pose proof (H x Hx) as Hu.
    apply elem_of_union in Hu as [Hu|Hu]; [|done].
    by apply elem_of_union in Hu as [Hu|Hu].
Qed.

Section PassCriteria.

Context (repr_set : gset string → string).


(** Which names the residue-type loop collects. *)
Lemma residue_types_of_spec lines x :
  x ∈ residue_types_of lines
  ↔ ∃ line, line ∈ lines ∧ is_atom_line line = true
      ∧ 20 ≤ PyStr.len line ∧ PyStr.strip (PyStr.slice 17 20 line) = x.
Proof.
  unfold residue_types_of.
  assert (Hgen : ∀ acc,
    x ∈ foldl add_residue_type acc lines
    ↔ x ∈ acc
      ∨ ∃ line, line ∈ lines ∧ is_atom_line line = true
          ∧ 20 ≤ PyStr.len line ∧ PyStr.strip (PyStr.slice 17 20 line) = x).
  { induction lines as [|line lines IH]; intros acc; cbn [foldl].
    - split; [by left|]. intros [H|(l & Hl & _)]; [done|].
      by apply elem_of_nil in Hl.
    - rewrite IH. unfold add_residue_type at 1.
      destruct (is_atom_line line) eqn:Ha.
      + destruct (Nat.leb_spec 20 (PyStr.len line)) as [Hlen|Hlen].
        * rewrite elem_of_union, elem_of_singleton. split.
          -- intros [[->|H]|(l & Hl & Hr)].
             ++ right. exists line. split; [by left|done].
             ++ by left.
             ++ right. exists l. split; [by right|done].
          -- intros [H|(l & [->|Hl]%elem_of_cons & Hal & H20 & Hs)].
             ++ by left; right.
             ++ by left; left.
             ++ right. by exists l.
        * split.
          -- intros [H|(l & Hl & Hr)]; [by left|].
             right. exists l. split; [by right|done].
          -- intros [H|(l & [->|Hl]%elem_of_cons & Hal & H20 & Hs)];
               [by left|lia|]. right. by exists l.
      + split.
        * intros [H|(l & Hl & Hr)]; [by left|].
          right. exists l. split; [by right|done].
        * intros [H|(l & [->|Hl]%elem_of_cons & Hal & H20 & Hs)];
            [by left|congruence|]. right. by exists l. }
  rewrite Hgen. split; [|by right]. intros [H|H]; [|done].
  by apply not_elem_of_empty in H.
Qed.

(** X8. The complete pass criterion of [validate_forcefield_coverage]
    for a file that exists and reads as text and a recognised force-field
    name: it passes exactly when every residue name, read from columns
    17-19 of the ATOM/HETATM lines of at least 20 characters, is a
    standard amino acid, a common solvent residue or a known heteroatom
    exception; shorter lines are skipped.  On a pass the name is stored
    as it was given. *)
Theorem forcefield_coverage_passes_iff fs self pdb_file forcefield content :
  FS.exists_ fs (full_path_of self pdb_file) = true →
  known_ff (normalize_ff_name forcefield) = true →
  FS.read_text fs (full_path_of self pdb_file) = inr content →
  let r := validate_forcefield_coverage repr_set fs pdb_file forcefield self in
  ((∃ msg, r.2 = inr (true, msg))
   ↔ ∀ line, line ∈ PyStr.readlines content →
       is_atom_line line = true → 20 ≤ PyStr.len line →
       PyStr.strip (PyStr.slice 17 20 line)
         ∈ standard_aa_ff ∪ common_solvent ∪ known_hetero)
  ∧ ((∃ msg, r.2 = inr (true, msg)) →
     forcefield_validated r.1 = true
     ∧ validated_forcefield r.1 = Some forcefield).
Proof.
  intros Hex Hknown Hread r.
  set (types := residue_types_of (PyStr.readlines content)).
  assert (Hcrit : unknown_of types = ∅
    ↔ ∀ line, line ∈ PyStr.readlines content →
        is_atom_line line = true → 20 ≤ PyStr.len line →
        PyStr.strip (PyStr.slice 17 20 line)
          ∈ standard_aa_ff ∪ common_solvent ∪ known_hetero).
  { unfold unknown_of, unsupported_of.
    rewrite !subseteq_difference_empty'. split.
    - intros Hsub line Hl Ha H20. apply Hsub.
      apply residue_types_of_spec. by exists line.
    - intros Hall x (line & Hl & Ha & H20 & <-)%residue_types_of_spec.
      by apply Hall. }
  assert (Hrun : r =
    if bool_decide (unsupported_of types ≠ ∅) && bool_decide (unknown_of types ≠ ∅)
    then (logged "forcefield" false (coverage_gap_message repr_set (unknown_of types)) self,
          inr (false, coverage_gap_message repr_set (unknown_of types)))
    else
      let msg := "✅ Force field validated: " +:+ forcefield +:+ nl
                 +:+ "   📊 " +:+ PyStr.of_nat (size types)
                 +:+ " residue types found" +:+ nl
                 +:+ "   🧬 All residues appear to be parameterized" in
      (logged "forcefield" true msg
         (set_validated_forcefield (Some forcefield)
            (set_forcefield_validated true self)),
       inr (true, msg))).
  { subst r. unfold validate_forcefield_coverage. unfold_m.
    rewrite Hex. cbn [negb]. rewrite Hknown. cbn [negb]. rewrite Hread.
    fold types. fold (unknown_of types).
    by destruct (bool_decide (unsupported_of types ≠ ∅)
                 && bool_decide (unknown_of types ≠ ∅)). }
  assert (Huns : unknown_of types ≠ ∅ → unsupported_of types ≠ ∅).
  { intros Hunk Hempty. apply Hunk. unfold unknown_of. rewrite Hempty.
    apply subseteq_difference_empty. by intros x ?%not_elem_of_empty. }
  destruct (decide (unknown_of types = ∅)) as [He|Hne].
  - rewrite (bool_decide_eq_false_2 (unknown_of types ≠ ∅)) in Hrun
      by (by intros H).
    rewrite andb_false_r in Hrun. rewrite Hrun. cbn [fst snd].
    split; [|by intros _]. split; [intros _; by apply Hcrit|by eexists].
  - rewrite (bool_decide_eq_true_2 _ Hne),
      (bool_decide_eq_true_2 _ (Huns Hne)) in Hrun.
    cbn [andb] in Hrun. rewrite Hrun. cbn [fst snd].
    split; [|by intros (m & [=])].
    split; [by intros (m & [=])|]. intros Hall. by apply Hcrit in Hall.
Qed.

End PassCriteria.

(** ** Force-field names, residue keys and counters *)

Lemma lower_app a b : PyStr.lower (a +:+ b) = PyStr.lower a +:+ PyStr.lower b.
Proof.
  induction a as [|c a IH]; [done|].
  rewrite append_cons. cbn [PyStr.lower]. by rewrite IH, append_cons.
Qed.

Lemma contains_app sub s t :
  PyStr.contains sub s = true → PyStr.contains sub (s +:+ t) = true.
Proof.
  induction s as [|c s IH].
  - cbn [PyStr.contains]. rewrite orb_false_r. intros H.
    destruct sub as [|a sub]; [|done].
    change ("" +:+ t) with t. by destruct t.
  - rewrite append_cons. cbn [PyStr.contains].
    intros [H|H]%orb_true_iff; apply orb_true_iff.
    + left. rewrite <- append_cons. by apply prefix_app.
    + right. by apply IH.
Qed.

(** X9. Any force-field name that mentions "amber" or "charmm", in any
    letter case and with or without the [.xml] ending, counts as known,
    whether or not it is in the list of available force fields. *)
Theorem known_ff_pattern forcefield :
  PyStr.contains "amber" (PyStr.lower forcefield) = true
  ∨ PyStr.contains "charmm" (PyStr.lower forcefield) = true →
  known_ff (normalize_ff_name forcefield) = true.
Proof.
  intros H. unfold known_ff, normalize_ff_name.
  destruct (negb (PyStr.endswith ".xml" forcefield)).
  - rewrite lower_app. destruct H as [H|H].
    + rewrite (contains_app _ _ _ H). by rewrite orb_true_r.
    + rewrite (contains_app _ _ _ H). by rewrite orb_true_r.
  - destruct H as [-> | ->]; by rewrite ?orb_true_r.
Qed.

Lemma known_ff_pattern_witness :
  known_ff (normalize_ff_name "My-AMBER-experiment") = true.
Proof. apply known_ff_pattern. left. by vm_compute. Defined.

(** X10. Which field of a residue key the amino-acid test looks at.
    The key is [chain_resnum_resname] and the test takes the third piece
    of the key split at ["_"].  When chain, residue number and residue
    name are free of underscores that piece is the residue name; but for
    the chain identifier ["_"] it is the residue number, so residues
    on such a chain are classified by their number and an alanine on
    chain ["_"] is not counted as an amino acid. *)
Theorem is_aa_residue_field chain resnum resname :
  PyStr.contains "_" resnum = false →
  PyStr.contains "_" resname = false →
  (PyStr.contains "_" chain = false →
   is_aa_residue (chain +:+ "_" +:+ resnum +:+ "_" +:+ resname)
   = inr (bool_decide (resname ∈ standard_aa)))
  ∧ is_aa_residue ("_" +:+ "_" +:+ resnum +:+ "_" +:+ resname)
    = inr (bool_decide (resnum ∈ standard_aa)).
Proof.
  intros Hnum Hname. unfold is_aa_residue. split.
  - intros Hchain.
    change (chain +:+ "_" +:+ resnum +:+ "_" +:+ resname)
      with (chain +:+ String "_"%char (resnum +:+ String "_"%char resname)).
    rewrite (split_app_first _ _ _ Hchain), (split_app_first _ _ _ Hnum),
      (split_no_sep _ _ Hname). done.
  - change ("_" +:+ "_" +:+ resnum +:+ "_" +:+ resname)
      with (String "_"%char (String "_"%char (resnum +:+ String "_"%char resname))).
    cbn [PyStr.split]. rewrite Ascii.eqb_refl.
    rewrite (split_app_first _ _ _ Hnum), (split_no_sep _ _ Hname). done.
Qed.

Lemma is_aa_residue_field_witness :
  is_aa_residue ("A" +:+ "_" +:+ "12" +:+ "_" +:+ "ALA") = inr true
  ∧ is_aa_residue ("_" +:+ "_" +:+ "12" +:+ "_" +:+ "ALA") = inr false.
Proof.
  destruct (is_aa_residue_field "A" "12" "ALA") as [H1 H2];
    [by vm_compute|by vm_compute|].
  split.
  - rewrite H1 by (by vm_compute). by vm_compute.
  - rewrite H2. by vm_compute.
Defined.

(** X11. The counters of [validate_system_preparation] partition the
    records: [atom_count] is the number of ATOM/HETATM lines, and every
    such line of at least 20 characters is counted once, as water, ion or
    protein; shorter records count as atoms only. *)
Theorem count_lines_partition lines :
  let c := count_lines lines in
  atom_count c = length (List.filter is_atom_line lines)
  ∧ water_count c + ion_count c + protein_atoms c
    = length (List.filter
                (λ line, is_atom_line line && (20 <=? PyStr.len line)) lines).
Proof.
  unfold count_lines.
  assert (Hgen : ∀ c0,
    let c := foldl count_line c0 lines in
    atom_count c = atom_count c0 + length (List.filter is_atom_line lines)
    ∧ water_count c + ion_count c + protein_atoms c
      = water_count c0 + ion_count c0 + protein_atoms c0
        + length (List.filter
                    (λ line, is_atom_line line && (20 <=? PyStr.len line)) lines)).
  { induction lines as [|line lines IH]; intros c0; cbn [foldl List.filter].
    - cbn [length]. lia.
    - destruct (IH (count_line c0 line)) as [H1 H2]. cbn zeta.
      rewrite H1, H2. unfold count_line.
      destruct (is_atom_line line); cbn [andb length]; [|lia].
      destruct (20 <=? PyStr.len line); cbn [length]; [|simpl; lia].
      destruct (bool_decide _); [simpl; lia|].
      destruct (bool_decide _); simpl; lia. }
  destruct (Hgen (mkCounts 0 0 0 0)) as [H1 H2]. cbn zeta. simpl in *. lia.
Qed.

(** ** Status checks after validation *)

Section StatusChecks.

Context (repr_set : gset string → string).

(** X12. [check_structure_status] demotes like the gate does: with the
    flag set and the stored file gone it clears flag and reference and
    says so, logging nothing; the next call, on any disk, finds nothing
    validated and changes nothing.  While the file is there it reports
    the stored file and changes nothing. *)
Theorem check_structure_status_demotes fs self p :
  structure_validated self = true →
  validated_structure_file self = Some p →
  p ≠ "" →
  (FS.exists_ fs p = false →
   check_structure_status fs self
     = (structure_demoted self,
        inr "❌ Previously validated structure file no longer exists")
   ∧ ∀ fs', check_structure_status fs' (structure_demoted self)
            = (structure_demoted self, inr "❌ No structure has been validated"))
  ∧ (FS.exists_ fs p = true →
     check_structure_status fs self
       = (self, inr ("✅ Structure validated: " +:+ OsPath.basename p))).
Proof.
  intros Hv Hf Hp. unfold check_structure_status. unfold_m.
  rewrite Hv, Hf, (truthy_Some_ne p Hp). simpl. split.
  - intros ->. done.
  - intros ->. done.
Qed.

(** X13. A prepared system stays ready while its file exists: after
    [validate_system_preparation] has passed, [check_system_ready]
    answers [True] with the file's base name on every disk that holds the
    resolved path, without reading the file again and without changing
    the state. *)
Theorem system_ready_after_preparation fs fs' self system_file msg :
  (validate_system_preparation fs system_file self).2 = inr (true, msg) →
  FS.exists_ fs' (full_path_of self system_file) = true →
  let s1 := (validate_system_preparation fs system_file self).1 in
  system_prepared s1 = true
  ∧ validated_system_file s1 = Some (full_path_of self system_file)
  ∧ check_system_ready fs' s1
    = (s1, inr (true, "✅ System ready: "
                       +:+ OsPath.basename (full_path_of self system_file))).
Proof.
  intros Hpass Hex'. cbn zeta.
  assert (Hs1 : ∃ m, validate_system_preparation fs system_file self
    = (logged "system" true m
         (set_validated_system_file (Some (full_path_of self system_file))
            (set_system_prepared true self)),
       inr (true, m))).
  { revert Hpass. unfold validate_system_preparation. unfold_m.
    destruct (FS.exists_ fs _); cbn [negb]; [|done].
    destruct (FS.read_text _ _); [done|].
    destruct (negb _); [done|]. intros _. by eexists. }
  destruct Hs1 as (m & ->). cbn [fst].
  split; [done|]. split; [done|].
  unfold check_system_ready. unfold bind at 1. unfold get_self.
  set (s1 := logged "system" true m _).
  change (system_prepared s1) with true.
  change (validated_system_file s1) with (Some (full_path_of self system_file)).
  rewrite (truthy_Some_ne _ (exists_true_ne _ _ Hex')).
  cbn [andb from_option id]. by rewrite Hex'.
Qed.

(** The text [get_validation_summary] ends with when it reports ready. *)
Lemma summary_tail self :
  ∃ body,
    (get_validation_summary self).2
    = inr (body +:+ "🎯 Overall: "
             +:+ (if structure_validated self && forcefield_validated self
                  then "✅ READY FOR SIMULATION" else "❌ NOT READY") +:+ nl)
    ∧ (get_validation_summary self).1 = self.
Proof.
  unfold get_validation_summary. unfold_m. cbn [fst snd].
  eexists. split; [reflexivity|done].
Qed.

End StatusChecks.

(** ** The summary *)

Lemma rev_app_append a acc : String.rev_app a acc = String.rev_app a "" +:+ acc.
Proof.
  revert acc. induction a as [|c a IH]; intros acc; [done|].
  cbn [String.rev_app]. rewrite (IH (String c acc)), (IH (String c "")).
  by rewrite append_assoc.
Qed.

Lemma rev_append a b : String.rev (a +:+ b) = String.rev b +:+ String.rev a.
Proof.
  unfold String.rev.
  assert (H : ∀ acc, String.rev_app (a +:+ b) acc
                     = String.rev_app b (String.rev_app a acc)).
  { induction a as [|c a IH]; intros acc; [done|].
    rewrite append_cons. cbn [String.rev_app]. apply IH. }
  rewrite H. apply rev_app_append.
Qed.

Lemma prefix_refl s : String.prefix s s = true.
Proof.
  induction s as [|c s IH]; [done|]. cbn [String.prefix].
  by destruct (ascii_dec c c).
Qed.

Section Summary.

Context (repr_set : gset string → string).

(** X15. The verdict of [get_validation_summary] depends on two flags
    only: the summary ends with the line "Overall: READY FOR SIMULATION"
    exactly when [structure_validated] and [forcefield_validated] are
    both set; [system_prepared], the stored references and the disk play
    no part, and the state is left as it was.  In particular the summary
    of the state a passing gate leaves says ready. *)
Theorem summary_verdict self :
  (∃ text,
     get_validation_summary self = (self, inr text)
     ∧ PyStr.endswith ("🎯 Overall: ✅ READY FOR SIMULATION" +:+ nl) text
       = structure_validated self && forcefield_validated self)
  ∧ ∀ fs s0 msg,
      check_workflow_status repr_set fs s0 = (self, inr (true, msg)) →
      ∃ text,
        get_validation_summary self = (self, inr text)
        ∧ PyStr.endswith ("🎯 Overall: ✅ READY FOR SIMULATION" +:+ nl) text = true.
Proof.
  assert (H1 : ∃ text,
     get_validation_summary self = (self, inr text)
     ∧ PyStr.endswith ("🎯 Overall: ✅ READY FOR SIMULATION" +:+ nl) text
       = structure_validated self && forcefield_validated self).
  { destruct (summary_tail self) as (body & Htext & Hst).
    destruct (get_validation_summary self) as [s r] eqn:Hs.
    simpl in Htext, Hst. subst s r. eexists. split; [reflexivity|].
    unfold PyStr.endswith.
    destruct (structure_validated self && forcefield_validated self).
    - rewrite (rev_append body). apply prefix_app, prefix_refl.
    - rewrite (rev_append body).
      generalize (String.rev body). intros rb. by vm_compute. }
  split; [exact H1|].
  intros fs s0 msg Hgate.
  destruct (gate_pass_sound repr_set fs s0 self msg Hgate) as (Hv & _ & Hf & _).
  destruct H1 as (text & Ht & He). exists text. split; [done|].
  by rewrite He, Hv, Hf.
Qed.

End Summary.

(** ** The decorators and the registry wrappers *)

Section Guards.

Context (repr_set : gset string → string).

(** X16. [require_workflow_ready] never runs the wrapped function on a
    manager whose force field is not validated: on every disk and for
    every wrapped function the call ends in the wrapper's refusal or in
    the exception of the gate, and the host's own state is untouched. *)
Theorem require_workflow_ready_blocks {S A : Type} fs
    (func : Host S → Host S * (Exn + A)) (self : Host S) vm :
  validation_manager self = Some vm →
  forcefield_validated vm = false →
  let r := require_workflow_ready repr_set fs func self in
  host_state r.1 = host_state self
  ∧ ((∃ msg, r.2 = inr (Refused ("❌ Workflow not ready: " +:+ msg)))
     ∨ (∃ e, r.2 = inl e
             ∧ (check_workflow_status repr_set fs vm).2 = inl e)).
Proof.
  intros Hvm Hff. cbn zeta. unfold require_workflow_ready. rewrite Hvm.
  pose proof (gate_blocks_without_forcefield repr_set fs vm) as Hblock.
  destruct (check_workflow_status repr_set fs vm) as [vm' [e|[ready msg]]].
  - split; [done|]. right. by exists e.
  - destruct ready.
    + exfalso. by apply (Hblock msg).
    + split; [done|]. left. by exists msg.
Qed.

(** X17. [require_structure] trusts the flag alone.  Without a manager
    it lets every call through.  With a manager whose structure is
    marked validated but whose file is gone it still runs the wrapped
    function, while [require_workflow_ready] refuses on the same host and
    demotes the stage, after which [require_structure] refuses too. *)
Theorem require_structure_trusts_flag {S A : Type} fs
    (func : Host S → Host S * (Exn + A)) (st : S) vm p :
  structure_validated vm = true →
  validated_structure_file vm = Some p →
  p ≠ "" →
  FS.exists_ fs p = false →
  require_structure func (mkHost st None) = run_wrapped func (mkHost st None)
  ∧ require_structure func (mkHost st (Some vm))
    = run_wrapped func (mkHost st (Some vm))
  ∧ ∃ msg vm',
      require_workflow_ready repr_set fs func (mkHost st (Some vm))
        = (mkHost st (Some vm'), inr (Refused ("❌ Workflow not ready: " +:+ msg)))
      ∧ require_structure func (mkHost st (Some vm'))
        = (mkHost st (Some vm'),
           inr (Refused "❌ Structure validation required before this operation")).
Proof.
  intros Hv Hf Hp Hex. split; [done|]. split.
  { unfold require_structure. cbn [validation_manager]. by rewrite Hv. }
  destruct (check_workflow_status_missing repr_set fs vm p Hv Hf Hp Hex)
    as (line & _ & Hgate).
  eexists _, _. unfold require_workflow_ready. cbn [validation_manager].
  rewrite Hgate. cbn [negb host_state]. split; [reflexivity|].
  unfold require_structure. cbn [validation_manager]. done.
Qed.

(** X18. The wrapper that [register_simulation_functions] hands to the
    agents never raises and always answers with text, the boolean of the
    gate being dropped: without a manager it says so, and when the gate
    raises, as it does for a working directory that cannot be listed, the
    answer is "Workflow status check error:" followed by the text of the
    exception.  The wrapper of [register_validation_functions] has no
    handler and raises the same exception. *)
Theorem sim_check_workflow_status_total fs (manager : option ValidationManager) :
  (∃ text, (sim_check_workflow_status repr_set fs manager).2 = inr text)
  ∧ (manager = None →
     sim_check_workflow_status repr_set fs manager
     = (None, inr "ValidationManager not available"))
  ∧ ∀ vm vm',
      manager = Some vm →
      (∀ e, check_workflow_status repr_set fs vm = (vm', inl e) →
         sim_check_workflow_status repr_set fs manager
         = (Some vm', inr ("Workflow status check error: " +:+ str_exn e))
         ∧ val_check_workflow_status repr_set fs vm = (vm', inl e))
      ∧ (∀ ok msg, check_workflow_status repr_set fs vm = (vm', inr (ok, msg)) →
         sim_check_workflow_status repr_set fs manager = (Some vm', inr msg)
         ∧ val_check_workflow_status repr_set fs vm = (vm', inr msg)).
Proof.
  split; [|split].
  - unfold sim_check_workflow_status. destruct manager as [vm|]; [|by eexists].
    destruct (check_workflow_status repr_set fs vm) as [vm' [e|[ok msg]]];
      by eexists.
  - by intros ->.
  - intros vm vm' ->. unfold sim_check_workflow_status, val_check_workflow_status.
    unfold_m. split.
    + intros e ->. done.
    + intros ok msg ->. done.
Qed.

End Guards.

(** ** The workflow logger *)

Lemma take_chars_prefix n s : String.prefix (PyStr.take_chars n s) s = true.
Proof.
  revert n. induction s as [|c s IH]; intros n; cbn [PyStr.take_chars]; [done|].
  destruct (PyStr.is_continuation c).
  - cbn [String.prefix]. destruct (ascii_dec c c); [apply IH|done].
  - destruct n as [|n]; [done|].
    cbn [String.prefix]. destruct (ascii_dec c c); [apply IH|done].
Qed.

Lemma len_chars_take n s :
  PyStr.len_chars (PyStr.take_chars n s) = n `min` PyStr.len_chars s.
Proof.
  revert n. induction s as [|c s IH]; intros n;
    cbn [PyStr.take_chars PyStr.len_chars]; [lia|].
  destruct (PyStr.is_continuation c) eqn:Hc.
  - cbn [PyStr.len_chars]. rewrite Hc, IH. lia.
  - destruct n as [|n]; [done|].
    cbn [PyStr.len_chars]. rewrite Hc, IH. lia.
Qed.

(** The cut of [take_chars] falls in front of a lead byte. *)
Lemma take_chars_split n s :
  ∃ rest, s = PyStr.take_chars n s +:+ rest
          ∧ ∀ c rest', rest = String c rest' → PyStr.is_continuation c = false.
Proof.
  revert n. induction s as [|c s IH]; intros n; cbn [PyStr.take_chars].
  - exists "". split; [done|]. by intros c rest'.
  - destruct (PyStr.is_continuation c) eqn:Hc.
    + destruct (IH n) as (rest & Heq & Hrest). exists rest.
      split; [|done]. by rewrite append_cons, <- Heq.
    + destruct n as [|n].
      * exists (String c s). split; [done|]. by intros c' rest' [= <- _].
      * destruct (IH n) as (rest & Heq & Hrest). exists rest.
        split; [|done]. by rewrite append_cons, <- Heq.
Qed.

Section Logger.

Import WorkflowLog WorkflowOps.

Context {float time : Type} (str_time : time → string)
  (elapsed_ms : time → time → float).

Lemma run_log_op_events (self : @LoggerObj float time) (op : @LogOp float time) :
  ∃ new,
    events (logger (run_log_op str_time elapsed_ms self op)) = events (logger self) ++ new
    ∧ log_lines (run_log_op str_time elapsed_ms self op)
      = log_lines self ++ (if line_written op then new else [])
    ∧ length new = (if logs_event op then 1 else 0).
Proof.
  destruct op as [w now a m c|w now stamp t ps r st|w now g b r|now n]; simpl.
  - eexists. split; [reflexivity|]. by destruct w; rewrite ?app_nil_r.
  - eexists. split; [reflexivity|]. by destruct w; rewrite ?app_nil_r.
  - unfold log_validation_gate. destruct b; simpl;
      (eexists; split; [reflexivity|]); by destruct w; rewrite ?app_nil_r.
  - exists []. by rewrite !app_nil_r.
Qed.

(** X19. In-memory events and the log file.  Starting from a fresh
    logger and running any sequence of logging calls: the events list
    only grows, by one event per logging call, and starts with the
    "WorkflowLogger initialized" event; the lines of the log file are a
    sub-sequence of the events, a failed append losing the line but not
    the event; and when every append went through the file holds exactly
    the events. *)
Theorem log_lines_follow_events (w0 : bool) (now0 : time) (stamp workdir : string)
    (ops : list (@LogOp float time)) :
  let l0 := WorkflowOps.init str_time w0 now0 stamp workdir in
  let l := foldl (run_log_op str_time elapsed_ms) l0 ops in
  length (events (logger l)) = 1 + length (List.filter logs_event ops)
  ∧ head (events (logger l)) = head (events (logger l0))
  ∧ head (events (logger l0)) ≫= (λ e, Some (message e))
    = Some "WorkflowLogger initialized"
  ∧ sublist (log_lines l) (events (logger l))
  ∧ (w0 = true → forallb line_written ops = true →
     log_lines l = events (logger l)).
Proof.
  cbn zeta.
  set (l0 := WorkflowOps.init str_time w0 now0 stamp workdir).
  assert (Hgen : ∀ (ops : list (@LogOp float time)) (s : @LoggerObj float time),
    ∃ new,
      events (logger (foldl (run_log_op str_time elapsed_ms) s ops)) = events (logger s) ++ new
      ∧ length new = length (List.filter logs_event ops)
      ∧ (sublist (log_lines s) (events (logger s)) →
         sublist (log_lines (foldl (run_log_op str_time elapsed_ms) s ops))
           (events (logger (foldl (run_log_op str_time elapsed_ms) s ops))))
      ∧ (log_lines s = events (logger s) →
         forallb line_written ops = true →
         log_lines (foldl (run_log_op str_time elapsed_ms) s ops)
         = events (logger (foldl (run_log_op str_time elapsed_ms) s ops)))).
  { clear. induction ops as [|op ops IH]; intros s; cbn [foldl].
    - exists []. rewrite app_nil_r. done.
    - destruct (run_log_op_events s op) as (n1 & He1 & Hl1 & Hn1).
      destruct (IH (run_log_op str_time elapsed_ms s op)) as (n2 & He2 & Hn2 & Hs2 & Hq2).
      exists (n1 ++ n2). split_and!.
      + by rewrite He2, He1, app_assoc.
      + rewrite length_app, Hn1, Hn2. cbn [List.filter].
        by destruct (logs_event op).
      + intros Hsub. apply Hs2. rewrite He1, Hl1.
        apply sublist_app; [done|].
        destruct (line_written op); [done|apply sublist_nil_l].
      + intros Heq Hall. cbn [forallb] in Hall.
        apply andb_true_iff in Hall as [Hw Hall].
        apply Hq2; [|done]. by rewrite He1, Hl1, Hw, Heq. }
  destruct (Hgen ops l0) as (new & He & Hn & Hsub & Heq).
  assert (H0 : length (events (logger l0)) = 1) by done.
  split_and!.
  - rewrite He, length_app, Hn, H0. done.
  - rewrite He. by destruct (events (logger l0)).
  - done.
  - apply Hsub. subst l0. unfold WorkflowOps.init, _log_event. simpl.
    destruct w0; [done|apply sublist_nil_l].
  - intros -> Hall. by apply Heq.
Qed.

(** X20. [log_tool_invocation] bounds the stored message: the message
    of the logged event is the result when it has at most 500
    characters and its first 500 characters otherwise, so it is a prefix
    of the result of at most 500 characters that ends between two
    characters; a result of 200 pictographs, 600 bytes of UTF-8, is
    stored whole.  The event carries the tool name and the given status
    and is the last of the events. *)
Theorem tool_message_truncated (self : @LoggerObj float time) w now stamp tool params
    result st :
  let l := log_tool_invocation str_time elapsed_ms w now stamp tool params
             result st self in
  ∃ e,
    events (logger l) = events (logger self) ++ [e]
    ∧ tool_name e = Some tool
    ∧ status e = st
    ∧ String.prefix (message e) result = true
    ∧ PyStr.len_chars (message e) = 500 `min` PyStr.len_chars result
    ∧ (PyStr.len_chars result ≤ 500 → message e = result)
    ∧ ∃ rest, result = message e +:+ rest
              ∧ ∀ c rest', rest = String c rest' → PyStr.is_continuation c = false.
Proof.
  cbn zeta. eexists. split; [reflexivity|]. cbn [tool_name status message].
  split; [done|]. split; [done|]. unfold truncate_result.
  destruct (Nat.ltb_spec 500 (PyStr.len_chars result)) as [Hlt|Hle].
  - split; [apply take_chars_prefix|]. split; [rewrite len_chars_take; lia|].
    split; [lia|]. apply take_chars_split.
  - split; [apply prefix_refl|]. split; [lia|]. split; [done|].
    exists "". split; [by rewrite append_empty_r|]. by intros c rest'.
Qed.

(** X21. A failed gate is remembered, a passed one clears nothing:
    [log_validation_gate] with [passed = False] sets [last_error] to
    "Validation failed: name - reason" and adds its event to
    [get_errors]; with [passed = True] it leaves the whole workflow state,
    an earlier [last_error] included, and [get_errors] as they were. *)
Theorem gate_failure_remembered (self : @LoggerObj float time) w now gate reason :
  let failed := log_validation_gate str_time w now gate false reason self in
  let passed := log_validation_gate str_time w now gate true reason self in
  last_error (state (logger failed))
    = Some ("Validation failed: " +:+ gate +:+ " - " +:+ reason)
  ∧ snapshot (state (logger failed)) = snapshot (state (logger self))
  ∧ (∃ e, get_errors failed = get_errors self ++ [e]
          ∧ message e = "Gate '" +:+ gate +:+ "': " +:+ reason)
  ∧ state (logger passed) = state (logger self)
  ∧ get_errors passed = get_errors self.
Proof.
  cbn zeta. unfold log_validation_gate, get_errors, _log_event. simpl.
  split; [done|]. split; [done|]. split.
  - eexists. rewrite List.filter_app. simpl. split; [reflexivity|done].
  - split; [done|]. rewrite List.filter_app. simpl. by rewrite app_nil_r.
Qed.

(** X22. A start time is used once: after [start_operation] for a tool,
    the next [log_tool_invocation] of that tool records the duration
    since that start and forgets the start, so a second invocation
    without a new start records no duration; start times of other
    operations are not touched. *)
Theorem duration_consumed_once (self : @LoggerObj float time) t0 tool
    w1 now1 stamp1 params1 result1 st1 w2 now2 stamp2 params2 result2 st2 :
  let l1 := log_tool_invocation str_time elapsed_ms w1 now1 stamp1 tool
              params1 result1 st1 (start_operation t0 tool self) in
  let l2 := log_tool_invocation str_time elapsed_ms w2 now2 stamp2 tool
              params2 result2 st2 l1 in
  (last (events (logger l1)) ≫= duration_ms) = Some (elapsed_ms now1 t0)
  ∧ _operation_start_times l1 !! tool = None
  ∧ last (events (logger l2)) ≫= duration_ms = None
  ∧ ∀ other, other ≠ tool →
      _operation_start_times l2 !! other = _operation_start_times self !! other.
Proof.
  cbn zeta. unfold log_tool_invocation, start_operation, _log_event. simpl.
  rewrite !last_snoc. simpl.
  rewrite lookup_insert_eq, !lookup_delete_eq. simpl.
  split; [done|]. split; [done|]. split; [done|].
  intros other Hne. by rewrite !lookup_delete_ne, lookup_insert_ne.
Qed.

(** X23. [get_recent_events(count)] returns the dumps of
    [events[-count:]]: for a positive count the last [count] events, all
    of them when there are fewer; for [count = 0] every event, since
    [events[-0:]] is the whole list; for a negative count the events
    after the first [-count]. *)
Theorem get_recent_events_slice (self : @LoggerObj float time) (count : Z) :
  let evs := events (logger self) in
  ((0 < count)%Z →
   get_recent_events count self
   = event_model_dump <$> drop (length evs - Z.to_nat count) evs)
  ∧ (count = 0%Z → get_recent_events count self = event_model_dump <$> evs)
  ∧ ((count < 0)%Z →
     get_recent_events count self
     = event_model_dump <$> drop (Z.to_nat (- count)) evs)
  ∧ ((0 < count)%Z →
     length (get_recent_events count self) = Z.to_nat count `min` length evs).
Proof.
  cbn zeta. unfold get_recent_events, slice_from.
  assert (Hpos : (0 < count)%Z →
    slice_from (- count) (events (logger self))
    = drop (length (events (logger self)) - Z.to_nat count)
        (events (logger self))).
  { intros Hc. unfold slice_from.
    destruct (Z.ltb_spec (- count) 0) as [_|Hge]; [|lia].
    f_equal. lia. }
  split_and!.
  - intros Hc. fold (slice_from (- count) (events (logger self))).
    by rewrite Hpos.
  - intros ->. done.
  - intros Hc. destruct (Z.ltb_spec (- count) 0) as [Hlt|_]; [lia|done].
  - intros Hc. fold (slice_from (- count) (events (logger self))).
    rewrite (Hpos Hc), length_fmap, length_drop. lia.
Qed.

End Logger.

(** ** Worked examples for the further properties *)

Lemma gate_pass_sound_witness :
  let s1 := (validate_structure repr_set_elements fs_ok "a.pdb" (init "/w")).1 in
  let s2 := (validate_forcefield_coverage repr_set_elements fs_ok
               "a.pdb" "amber14-all.xml" s1).1 in
  let r := check_workflow_status repr_set_elements fs_ok s2 in
  structure_validated r.1 = true
  ∧ (∃ p, validated_structure_file r.1 = Some p ∧ FS.exists_ fs_ok p = true)
  ∧ forcefield_validated r.1 = true
  ∧ (∃ name, validated_forcefield r.1 = Some name ∧ name ≠ "")
  ∧ ∃ msg, last (validation_history r.1) = Some (mkLogEntry "workflow" true msg).
Proof.
  intros s1 s2 r.
  assert (Hr : ∃ msg, r = (r.1, inr (true, msg))).
  { eexists. by vm_compute. }
  destruct Hr as (msg & Hr).
  destruct (gate_pass_sound repr_set_elements fs_ok s2 r.1 msg Hr)
    as (H1 & H2 & H3 & H4 & H5).
  split; [exact H1|]. split; [exact H2|]. split; [exact H3|].
  split; [exact H4|]. by exists msg.
Defined.

Lemma manual_marks_open_gate_witness :
  let s1 := (mark_structure_validated fs_empty_file "empty.pdb" (init "/w")).1 in
  let s2 := (mark_forcefield_validated "anything" "empty.pdb" s1).1 in
  (validate_structure repr_set_elements fs_empty_file "empty.pdb" (init "/w")).2
  = inr (false, "❌ PDB has insufficient atoms: 0 ATOM/HETATM records")
  ∧ ∃ msg, (check_workflow_status repr_set_elements fs_empty_file s2).2
           = inr (true, msg).
Proof.
  split; [by vm_compute|].
  apply (manual_marks_open_gate repr_set_elements fs_empty_file fs_empty_file
           (init "/w") "empty.pdb" "anything"); [by vm_compute|by vm_compute|done].
Defined.


(** Ten water records validate as a structure. *)
Example water_only_structure_validates :
  (validate_structure repr_set_elements fs_water "water.pdb" (init "/w")).2
  = inr (true,
         "✅ Structure validated: water.pdb" +:+ nl
         +:+ "   📊 10 atoms, 1 residues, 1 chain(s)" +:+ nl
         +:+ "   🧬 0 amino acid residues").
Proof. by vm_compute. Qed.

Lemma forcefield_coverage_passes_iff_witness :
  let r := validate_forcefield_coverage repr_set_elements fs_ok
             "a.pdb" "amber14-all" (init "/w") in
  ((∃ msg, r.2 = inr (true, msg))
   ↔ ∀ line, line ∈ PyStr.readlines pdb_ok →
       is_atom_line line = true → 20 ≤ PyStr.len line →
       PyStr.strip (PyStr.slice 17 20 line)
         ∈ standard_aa_ff ∪ common_solvent ∪ known_hetero)
  ∧ ((∃ msg, r.2 = inr (true, msg)) →
     forcefield_validated r.1 = true
     ∧ validated_forcefield r.1 = Some "amber14-all").
Proof.
  apply (forcefield_coverage_passes_iff repr_set_elements fs_ok (init "/w")
           "a.pdb" "amber14-all" pdb_ok); by vm_compute.
Defined.

Lemma check_structure_status_demotes_witness :
  let self := (validate_structure repr_set_elements fs_full "old.pdb" (init "/w")).1 in
  check_structure_status fs_ok self
    = (structure_demoted self,
       inr "❌ Previously validated structure file no longer exists")
  ∧ check_structure_status fs_full (structure_demoted self)
    = (structure_demoted self, inr "❌ No structure has been validated")
  ∧ check_structure_status fs_full self
    = (self, inr ("✅ Structure validated: " +:+ OsPath.basename "/w/old.pdb")).
Proof.
  intros self.
  destruct (check_structure_status_demotes fs_ok self "/w/old.pdb") as [H1 _];
    [by vm_compute|by vm_compute|done|].
  destruct (check_structure_status_demotes fs_full self "/w/old.pdb") as [_ H2];
    [by vm_compute|by vm_compute|done|].
  destruct H1 as [H1 H1']; [by vm_compute|].
  split; [exact H1|]. split; [apply H1'|]. apply H2. by vm_compute.
Defined.

Lemma system_ready_after_preparation_witness :
  let s1 := (validate_system_preparation fs_full "system.pdb" (init "/w")).1 in
  system_prepared s1 = true
  ∧ validated_system_file s1 = Some (full_path_of (init "/w") "system.pdb")
  ∧ check_system_ready fs_full s1
    = (s1, inr (true, "✅ System ready: "
                       +:+ OsPath.basename (full_path_of (init "/w") "system.pdb"))).
Proof.
  assert (Hp : ∃ msg,
    (validate_system_preparation fs_full "system.pdb" (init "/w")).2
    = inr (true, msg)).
  { eexists. by vm_compute. }
  destruct Hp as (msg & Hp).
  apply (system_ready_after_preparation fs_full fs_full (init "/w")
           "system.pdb" msg Hp). by vm_compute.
Defined.

Lemma summary_verdict_witness :
  let s1 := (validate_structure repr_set_elements fs_ok "a.pdb" (init "/w")).1 in
  let s2 := (validate_forcefield_coverage repr_set_elements fs_ok
               "a.pdb" "amber14-all.xml" s1).1 in
  let s3 := (check_workflow_status repr_set_elements fs_ok s2).1 in
  ∃ text,
    get_validation_summary s3 = (s3, inr text)
    ∧ PyStr.endswith ("🎯 Overall: ✅ READY FOR SIMULATION" +:+ nl) text = true.
Proof.
  intros s1 s2 s3.
  destruct (summary_verdict repr_set_elements s3) as [_ H].
  assert (Hg : ∃ msg, check_workflow_status repr_set_elements fs_ok s2
                      = (s3, inr (true, msg))).
  { eexists. by vm_compute. }
  destruct Hg as (msg & Hg). exact (H fs_ok s2 msg Hg).
Defined.

Lemma require_workflow_ready_blocks_witness :
  let vm := (validate_structure repr_set_elements fs_ok "a.pdb" (init "/w")).1 in
  let self := mkHost 7 (Some vm) in
  let r := require_workflow_ready repr_set_elements fs_ok
             (λ h : Host nat, (mkHost (S (host_state h)) (validation_manager h),
                               inr "ran")) self in
  host_state r.1 = 7
  ∧ ((∃ msg, r.2 = inr (Refused ("❌ Workflow not ready: " +:+ msg)))
     ∨ (∃ e, r.2 = inl e
             ∧ (check_workflow_status repr_set_elements fs_ok vm).2 = inl e)).
Proof.
  intros vm self r.
  apply (require_workflow_ready_blocks repr_set_elements fs_ok _ self vm);
    [done|by vm_compute].
Defined.

Lemma require_structure_trusts_flag_witness :
  let vm := (validate_structure repr_set_elements fs_full "old.pdb" (init "/w")).1 in
  let func := λ h : Host nat,
    (mkHost (S (host_state h)) (validation_manager h), inr "ran") in
  require_structure func (mkHost 7 None) = run_wrapped func (mkHost 7 None)
  ∧ require_structure func (mkHost 7 (Some vm))
    = run_wrapped func (mkHost 7 (Some vm))
  ∧ ∃ msg vm',
      require_workflow_ready repr_set_elements fs_ok func (mkHost 7 (Some vm))
        = (mkHost 7 (Some vm'), inr (Refused ("❌ Workflow not ready: " +:+ msg)))
      ∧ require_structure func (mkHost 7 (Some vm'))
        = (mkHost 7 (Some vm'),
           inr (Refused "❌ Structure validation required before this operation")).
Proof.
  intros vm func.
  apply (require_structure_trusts_flag repr_set_elements fs_ok func 7 vm
           "/w/old.pdb"); [by vm_compute|by vm_compute|done|by vm_compute].
Defined.

Lemma sim_check_workflow_status_total_witness :
  sim_check_workflow_status repr_set_elements fs_workdir_is_file (Some (init "/w"))
    = (Some (init "/w"),
       inr ("Workflow status check error: "
              +:+ str_exn (OSError "[Errno 20] Not a directory: '/w'")))
  ∧ val_check_workflow_status repr_set_elements fs_workdir_is_file (init "/w")
    = (init "/w", inl (OSError "[Errno 20] Not a directory: '/w'"))
  ∧ sim_check_workflow_status repr_set_elements fs_workdir_is_file None
    = (None, inr "ValidationManager not available").
Proof.
  destruct (sim_check_workflow_status_total repr_set_elements fs_workdir_is_file
              (Some (init "/w"))) as (_ & _ & H).
  destruct (H (init "/w") (init "/w") eq_refl) as [He _].
  destruct (He (OSError "[Errno 20] Not a directory: '/w'")) as [H1 H2];
    [by vm_compute|].
  destruct (sim_check_workflow_status_total repr_set_elements fs_workdir_is_file
              None) as (_ & Hn & _).
  split; [exact H1|]. split; [exact H2|]. by apply Hn.
Defined.

Lemma log_lines_follow_events_witness :
  let ops : list (@WorkflowOps.LogOp nat nat) :=
    [ WorkflowOps.OpStartOperation 5 "minimize";
      WorkflowOps.OpLogToolInvocation true 9 9 "minimize" [] "ok" "success";
      WorkflowOps.OpLogValidationGate true 12 "structure" false "missing" ] in
  let l := foldl (WorkflowOps.run_log_op PyStr.of_nat (λ a b, a - b))
             example_logger ops in
  length (WorkflowLog.events (WorkflowOps.logger l)) = 3
  ∧ WorkflowOps.log_lines l = WorkflowLog.events (WorkflowOps.logger l).
Proof.
  intros ops l.
  destruct (log_lines_follow_events PyStr.of_nat (λ a b, a - b) true 0
              "20260101_000000" "/w" ops) as (H1 & _ & _ & _ & H5).
  split; [exact H1|]. by apply H5.
Defined.

Lemma tool_message_truncated_witness :
  let result := String.concat "" (replicate 200 "✅") in
  let l := WorkflowOps.log_tool_invocation PyStr.of_nat (λ a b, a - b)
             true 9 9 "minimize" [] result "success" example_logger in
  String.length result = 600
  ∧ PyStr.len_chars result = 200
  ∧ ∃ e,
      WorkflowLog.events (WorkflowOps.logger l)
        = WorkflowLog.events (WorkflowOps.logger example_logger) ++ [e]
      ∧ WorkflowLog.message e = result.
Proof.
  intros result l.
  split; [by vm_compute|]. split; [by vm_compute|].
  destruct (tool_message_truncated PyStr.of_nat (λ a b, a - b) example_logger
              true 9 9 "minimize" [] result "success")
    as (e & He & _ & _ & _ & _ & Hm & _).
  exists e. split; [exact He|]. apply Hm. apply Nat.leb_le. by vm_compute.
Defined.

(** A result of 501 pictographs loses the last one and no byte more. *)
Example long_result_is_cut_between_characters :
  WorkflowOps.truncate_result (String.concat "" (replicate 501 "✅"))
  = String.concat "" (replicate 500 "✅").
Proof. by vm_compute. Qed.

Lemma duration_consumed_once_witness :
  let l0 := WorkflowOps.start_operation 2 "solvate" example_logger in
  let l1 := WorkflowOps.log_tool_invocation PyStr.of_nat (λ a b, a - b)
              true 9 9 "minimize" [] "ok" "success"
              (WorkflowOps.start_operation 5 "minimize" l0) in
  let l2 := WorkflowOps.log_tool_invocation PyStr.of_nat (λ a b, a - b)
              true 20 20 "minimize" [] "ok" "success" l1 in
  (last (WorkflowLog.events (WorkflowOps.logger l1)) ≫= WorkflowLog.duration_ms)
    = Some 4
  ∧ last (WorkflowLog.events (WorkflowOps.logger l2)) ≫= WorkflowLog.duration_ms
    = None
  ∧ WorkflowOps._operation_start_times l2 !! "solvate" = Some 2.
Proof.
  intros l0 l1 l2.
  destruct (duration_consumed_once PyStr.of_nat (λ a b, a - b) l0 5 "minimize"
              true 9 9 [] "ok" "success" true 20 20 [] "ok" "success")
    as (H1 & _ & H3 & H4).
  split; [exact H1|]. split; [exact H3|].
  fold l1 l2 in H4. rewrite (H4 "solvate") by done. by vm_compute.
Defined.

Lemma get_recent_events_slice_witness :
  length (WorkflowOps.get_recent_events 10 example_logger) = 1
  ∧ WorkflowOps.get_recent_events 0 example_logger
    = WorkflowLog.event_model_dump
        <$> WorkflowLog.events (WorkflowOps.logger example_logger).
Proof.
  destruct (get_recent_events_slice example_logger 10) as (_ & _ & _ & H4).
  destruct (get_recent_events_slice example_logger 0) as (_ & H2 & _ & _).
  split; [by rewrite H4|by apply H2].
Defined.
